(** * Edgy ORM: many-to-many fields, base models and row materialisation

    A shallow embedding of
      - [edgy/core/db/fields/many_to_many.py]
      - [edgy/core/db/models/base.py]
      - [edgy/core/db/models/row.py]
    with the properties of their specification stated and proved (or
    refuted at a concrete input) over the embedded functions. *)

From Stdlib Require Import Ascii.
From stdpp Require Import base strings list gmap pretty.

Open Scope string_scope.

(** * Python values, exceptions and dictionaries *)
Module Py.

(** The values the three source files pass around.  [VObj] is a reference
    into the object store (model classes, registries); [VExt] stands for an
    object owned by an external library (for instance the class
    [sqlalchemy.ForeignKey]).  Floats are not part of the model. *)
Inductive value :=
| VNone
| VBool (b : bool)
| VInt (z : Z)
| VStr (s : string)
| VObj (a : nat)
| VExt (name : string).

(** [bool(v)]: the truth value tested by [if v:]. *)
Definition truthy (v : value) : bool :=
  match v with
  | VNone => false
  | VBool b => b
  | VInt z => negb (Z.eqb z 0)
  | VStr s => negb (String.eqb s "")
  | VObj _ | VExt _ => true
  end.

(** [isinstance(v, str)]. *)
Definition isinstance_str (v : value) : bool :=
  match v with VStr _ => true | _ => false end.

(** [a == b]; [bool] is a subclass of [int], so [True == 1]. *)
Definition py_eqb (a b : value) : bool :=
  match a, b with
  | VNone, VNone => true
  | VBool x, VBool y => Bool.eqb x y
  | VBool x, VInt y | VInt y, VBool x => Z.eqb (Z.b2z x) y
  | VInt x, VInt y => Z.eqb x y
  | VStr x, VStr y => String.eqb x y
  | VObj x, VObj y => Nat.eqb x y
  | VExt x, VExt y => String.eqb x y
  | _, _ => false
  end.

(** [str.lower()] on ASCII text: the letters [A]..[Z] move to [a]..[z],
    every other byte is kept. *)
Definition lower_ascii (c : ascii) : ascii :=
  let n := nat_of_ascii c in
  if Nat.leb 65 n && Nat.leb n 90 then ascii_of_nat (n + 32) else c.

Fixpoint lower (s : string) : string :=
  match s with
  | EmptyString => EmptyString
  | String c r => String (lower_ascii c) (lower r)
  end.

(** [str(v)] as used by f-strings.  The text of an object of the store or
    of an external library is not determined by these files; a fixed
    marker stands for it. *)
Definition py_str (v : value) : string :=
  match v with
  | VNone => "None"
  | VBool true => "True"
  | VBool false => "False"
  | VInt z => pretty z
  | VStr s => s
  | VObj _ => "<object>"
  | VExt n => n
  end.

(** Exceptions.  [Foreign] is an exception raised inside an external
    library; [derives_Exception] tells whether its class derives from
    [Exception] (as every error does) or only from [BaseException]
    (as [KeyboardInterrupt] and [SystemExit] do).  The second argument of
    [ImproperlyConfigured] is the [__cause__] set by [raise ... from e];
    the only [raise] of that class in these files sets one. *)
Inductive exn :=
| AssertionError (msg : string)
| TypeError (msg : string)
| AttributeError (msg : string)
| KeyError (key : string)
| ValueError (msg : string)
| ImproperlyConfigured (detail : string) (cause : exn)
| Foreign (cls : string) (derives_Exception : bool) (msg : string).

(** [isinstance(e, Exception)], the test made by [except Exception]. *)
Definition is_Exception (e : exn) : bool :=
  match e with
  | Foreign _ d _ => d
  | _ => true
  end.

(** A computation that returns or raises. *)
Definition result (A : Type) : Type := exn + A.

Definition bind {A B} (r : result A) (k : A → result B) : result B :=
  match r with
  | inl e => inl e
  | inr a => k a
  end.

(** A Python [dict] with string keys: insertion-ordered, one entry per key. *)
Abbreviation dict V := (list (string * V)).

Section Dict.
Context {V : Type}.

Definition keys (d : dict V) : list string := d.*1.

(** [d.get(k)] / [d[k]] *)
Fixpoint dict_get (k : string) (d : dict V) : option V :=
  match d with
  | [] => None
  | (k', v) :: r => if decide (k' = k) then Some v else dict_get k r
  end.

(** [k in d] *)
Definition dict_has (k : string) (d : dict V) : bool :=
  bool_decide (k ∈ keys d).

(** [d[k] = v]: an existing key keeps its position, a new one goes last. *)
Fixpoint dict_set (k : string) (v : V) (d : dict V) : dict V :=
  match d with
  | [] => [(k, v)]
  | (k', v') :: r =>
      if decide (k' = k) then (k, v) :: r else (k', v') :: dict_set k v r
  end.

(** [del d[k]] (no error when the key is absent) *)
Definition dict_del (k : string) (d : dict V) : dict V :=
  filter (λ p, p.1 ≠ k) d.

(** [d.pop(k, dflt)]: the value and the dictionary left. *)
Definition dict_pop (k : string) (dflt : V) (d : dict V) : V * dict V :=
  (default dflt (dict_get k d), dict_del k d).

(** [{**a, **b}] *)
Definition dict_update (a b : dict V) : dict V :=
  foldl (λ acc p, dict_set p.1 p.2 acc) a b.
End Dict.

End Py.

Export Py.

Notation "'let*' x ':=' c 'in' k" := (bind c (λ x, k))
  (at level 10, x pattern, c at level 100, k at level 200, only parsing).

(** * Field factory and many-to-many field ([fields/many_to_many.py]) *)
Module ManyToMany.

(** Modelled from the spec: the module [edgy.core.db.constants] is not part
    of the sources at hand; the spec names the two actions [CASCADE] and
    [RESTRICT]. *)
Definition CASCADE : value := VStr "CASCADE".
Definition RESTRICT : value := VStr "RESTRICT".

Definition CLASS_DEFAULTS : list string := ["cls"; "__class__"; "kwargs"].

(** Modelled from the spec: the constructor of [BaseField] is not part of the
    sources at hand.  The factory "instantiates it with the assembled
    namespace as its constructor arguments", so a field object is the
    namespace it was built from: one component per keyword that
    [ForeignKeyFieldFactory.__new__] writes, and [extra] for the options it
    passes through verbatim. *)
Record field := Field {
  __type__ : value;
  to : value;
  on_update : value;
  on_delete : value;
  related_name : value;
  annotation : value;
  null : value;
  comment : value;
  owner : value;
  server_default : value;
  server_onupdate : value;
  through : value;
  registry : value;
  column_type : value;
  is_m2m : value;
  is_o2o : value;
  is_fk : value;
  constraints : list value;
  extra : dict value
}.

(** The keywords spelled out in [dict(__type__=..., ..., **kwargs)]. *)
Definition namespace_keywords : list string :=
  ["__type__"; "to"; "on_update"; "on_delete"; "related_name"; "annotation";
   "null"; "comment"; "owner"; "server_default"; "server_onupdate";
   "through"; "registry"; "column_type"; "is_m2m"; "is_o2o"; "is_fk";
   "constraints"].

(** What a subclass of the factory may override: the class attribute
    [_type] and the class methods [validate] and [get_constraints].
    [validate] is called with [kwargs] unpacked: it works on a dictionary of
    its own, and what it leaves there is returned here so that its
    assignments stay visible; Python itself returns [None]. *)
Record factory := Factory {
  cls_name : string;
  _type : value;
  validate : dict value → result (dict value);
  get_constraints : list value
}.

(** [ForeignKeyFieldFactory.__new__(cls, **kwargs)].  The dictionary given to
    [validate] is a copy; the [pop]s below read the caller's [kwargs].
    [dict(k=..., **kwargs)] raises [TypeError] when [kwargs] repeats one of
    the spelled-out keywords. *)
Definition ForeignKeyFieldFactory_new (cls : factory) (kwargs : dict value)
  : result field :=
  let* _ := validate cls kwargs in
  let '(to, kwargs) := dict_pop "to" VNone kwargs in
  let '(null, kwargs) := dict_pop "null" (VBool false) kwargs in
  let '(on_update, kwargs) := dict_pop "on_update" CASCADE kwargs in
  let '(on_delete, kwargs) := dict_pop "on_delete" RESTRICT kwargs in
  let '(related_name, kwargs) := dict_pop "related_name" VNone kwargs in
  let '(comment, kwargs) := dict_pop "comment" VNone kwargs in
  let '(through, kwargs) := dict_pop "through" VNone kwargs in
  let '(owner, kwargs) := dict_pop "owner" VNone kwargs in
  let '(server_default, kwargs) := dict_pop "server_default" VNone kwargs in
  let '(server_onupdate, kwargs) := dict_pop "server_onupdate" VNone kwargs in
  let '(registry, kwargs) := dict_pop "registry" VNone kwargs in
  let '(is_o2o, kwargs) := dict_pop "is_o2o" (VBool false) kwargs in
  let '(is_fk, kwargs) := dict_pop "is_fk" (VBool false) kwargs in
  let is_m2m := VBool true in
  let field_type := _type cls in
  match List.find (λ k, bool_decide (k ∈ namespace_keywords)) (keys kwargs) with
  | Some k =>
      inl (TypeError
             ("dict() got multiple values for keyword argument '" +:+ k +:+ "'"))
  | None =>
      inr {| __type__ := field_type; to := to; on_update := on_update;
             on_delete := on_delete; related_name := related_name;
             annotation := field_type; null := null; comment := comment;
             owner := owner; server_default := server_default;
             server_onupdate := server_onupdate; through := through;
             registry := registry; column_type := field_type;
             is_m2m := is_m2m; is_o2o := is_o2o; is_fk := is_fk;
             constraints := get_constraints cls; extra := kwargs |}
  end.

(** The base class: [validate] does nothing, [_type] is [None],
    [get_constraints] is the empty list. *)
Definition ForeignKeyFieldFactory : factory :=
  {| cls_name := "ForeignKeyFieldFactory"; _type := VNone;
     validate := λ kwargs, inr kwargs; get_constraints := [] |}.

(** [ManyToManyField.validate].  Past the [assert], a truthy [related_name]
    is a string. *)
Definition ManyToManyField_validate (kwargs : dict value)
  : result (dict value) :=
  let related_name := default VNone (dict_get "related_name" kwargs) in
  if truthy related_name && negb (isinstance_str related_name)
  then inl (AssertionError "related_name must be a string.")
  else
    inr (dict_set "related_name"
           (match related_name with
            | VStr s => if truthy related_name then VStr (lower s) else VNone
            | _ => VNone
            end)
           kwargs).

Definition ManyToManyField : factory :=
  {| cls_name := "ManyToManyField"; _type := VExt "sqlalchemy.ForeignKey";
     validate := ManyToManyField_validate; get_constraints := [] |}.

Definition null_warning : string :=
  "Declaring `null` on a ManyToMany relationship has no effect.".

(** [ManyToManyField.__new__(cls, to, *, through=None, **kwargs)].  The first
    component is what [terminal.write_warning] was asked to print.
    [locals()] lists [cls], [to], [through], [kwargs], [null] and
    [__class__]; the three names of [CLASS_DEFAULTS] are filtered out, so
    the values bound to them (a class and a dictionary, which are no
    [value]s) are written [VNone]. *)
Definition ManyToManyField_new (to through : value) (kwargs : dict value)
  : list string * result field :=
  let null := default VNone (dict_get "null" kwargs) in
  let warnings := if truthy null then [null_warning] else [] in
  let locals : dict value :=
    [("cls", VNone); ("to", to); ("through", through); ("kwargs", VNone);
     ("null", null); ("__class__", VNone)] in
  let kwargs :=
    dict_update kwargs
      (filter (λ p, p.1 ∉ CLASS_DEFAULTS) locals) in
  let kwargs := dict_set "null" (VBool true) kwargs in
  (warnings, ForeignKeyFieldFactory_new ManyToManyField kwargs).

(** The public alias [ManyToMany = ManyToManyField]. *)
Definition ManyToMany := ManyToManyField_new.

(** ** The object store

    Model classes and registries are shared mutable objects: a field, a
    registry catalogue and another model may all refer to the same class.
    They live in a store and are referred to by [VObj a]. *)

(** Modelled from the spec: [edgy.IntegerField] and [ForeignKey] are not part
    of the sources at hand.  A field definition records the constructor call
    as [create_through_model] writes it; per the spec the [id] field built by
    [IntegerField(primary_key=True)] is "an auto-incrementing integer primary
    key". *)
Inductive field_def :=
| IntegerField (primary_key : bool)
| ForeignKey (to : value) (null : bool) (on_delete : value)
    (related_name : string).

Definition is_integer (d : field_def) : bool :=
  match d with IntegerField _ => true | _ => false end.

Definition is_primary_key (d : field_def) : bool :=
  match d with IntegerField pk => pk | _ => false end.

Definition autoincrement (d : field_def) : bool :=
  match d with IntegerField pk => pk | _ => false end.

(** Modelled from the spec: [MetaInfo] and its [load_dict] are not part of the
    sources at hand.  The record holds the four attributes that
    [create_through_model] loads or assigns. *)
Record MetaInfo := {
  tablename : string;
  meta_registry : value;
  is_multi : bool;
  multi_related : list string
}.

(** Modelled from the spec: [create_edgy_model] is not part of the sources at
    hand: "the new model is created through the shared model-construction
    facility" from a name, a module, the field definitions and the meta. *)
Record model := Model {
  __name__ : string;
  __module__ : string;
  definitions : dict field_def;
  meta : MetaInfo
}.

Inductive obj :=
| OModel (m : model)
| ORegistry (models : gmap string value).

Abbreviation store := (gmap nat obj).

(** [v.attr] for an attribute that model classes have. *)
Definition get_model (h : store) (v : value) (attr : string) : result model :=
  match v with
  | VObj a =>
      match h !! a with
      | Some (OModel m) => inr m
      | _ => inl (AttributeError attr)
      end
  | _ => inl (AttributeError attr)
  end.

(** [v.models] for a registry [v]: its address and its catalogue. *)
Definition get_models (h : store) (v : value)
  : result (nat * gmap string value) :=
  match v with
  | VObj a =>
      match h !! a with
      | Some (ORegistry models) => inr (a, models)
      | _ => inl (AttributeError "models")
      end
  | _ => inl (AttributeError "models")
  end.

(** [v.meta.<attr> = ...]: the class behind [v] is updated in place. *)
Definition set_meta (h : store) (v : value) (upd : MetaInfo → MetaInfo)
  : result store :=
  match v with
  | VObj a =>
      match h !! a with
      | Some (OModel m) =>
          inr (<[a := OModel {| __name__ := __name__ m;
                               __module__ := __module__ m;
                               definitions := definitions m;
                               meta := upd (meta m) |}]> h)
      | _ => inl (AttributeError "meta")
      end
  | _ => inl (AttributeError "meta")
  end.

(** [self.through = v] *)
Definition set_through (v : value) (self : field) : field :=
  {| __type__ := __type__ self; to := to self; on_update := on_update self;
     on_delete := on_delete self; related_name := related_name self;
     annotation := annotation self; null := null self;
     comment := comment self; owner := owner self;
     server_default := server_default self;
     server_onupdate := server_onupdate self; through := v;
     registry := registry self; column_type := column_type self;
     is_m2m := is_m2m self; is_o2o := is_o2o self; is_fk := is_fk self;
     constraints := constraints self; extra := extra self |}.

(** The module the synthesised field class is defined in. *)
Definition field_module : string := "edgy.core.db.fields.many_to_many".

(** [add_model_to_register(self, model)] *)
Definition add_model_to_register (self : field) (model : value) (h : store)
  : result store :=
  let* (r, models) := get_models h (registry self) in
  let* m := get_model h model "__name__" in
  inr (<[r := ORegistry (<[__name__ m := model]> models)]> h).

(** [create_through_model(self)]: the field after the call, the store after
    the call and the value returned.  The state left behind by a call that
    raises is not tracked. *)
Definition create_through_model (self : field) (h : store)
  : result (field * store * value) :=
  if truthy (through self) then
    let* self :=
      (if isinstance_str (through self) then
         let* owner_cls := get_model h (owner self) "meta" in
         let* (_, models) := get_models h (meta_registry (meta owner_cls)) in
         match models !! py_str (through self) with
         | Some m => inr (set_through m self)
         | None => inl (KeyError (py_str (through self)))
         end
       else inr self) in
    let* h :=
      set_meta h (through self)
        (λ mt, {| tablename := tablename mt;
                  meta_registry := meta_registry mt;
                  is_multi := true; multi_related := multi_related mt |}) in
    let* to_cls := get_model h (to self) "__name__" in
    let* h :=
      set_meta h (through self)
        (λ mt, {| tablename := tablename mt;
                  meta_registry := meta_registry mt;
                  is_multi := is_multi mt;
                  multi_related := [lower (__name__ to_cls)] |}) in
    inr (self, h, through self)
  else
    let* owner_cls := get_model h (owner self) "__name__" in
    let owner_name := __name__ owner_cls in
    let* to_cls := get_model h (to self) "__name__" in
    let to_name := __name__ to_cls in
    let class_name := owner_name +:+ to_name in
    let tablename := lower (lower owner_name +:+ "s_" +:+ to_name +:+ "s") in
    let new_meta :=
      {| tablename := tablename; meta_registry := registry self;
         is_multi := true; multi_related := [lower to_name] |} in
    let owner_related_name :=
      if truthy (related_name self)
      then py_str (related_name self) +:+ "_" +:+ lower class_name +:+ "s_set"
      else lower owner_name +:+ "_" +:+ lower class_name +:+ "s_set" in
    let to_related_name :=
      if truthy (related_name self)
      then py_str (related_name self)
      else lower to_name +:+ "_" +:+ lower class_name +:+ "s_set" in
    let fields :=
      dict_set (lower to_name)
        (ForeignKey (to self) true CASCADE to_related_name)
        (dict_set (lower owner_name)
           (ForeignKey (owner self) true CASCADE owner_related_name)
           (dict_set "id" (IntegerField true) [])) in
    let a := fresh (dom h) in
    let through_model :=
      {| __name__ := class_name; __module__ := field_module;
         definitions := fields; meta := new_meta |} in
    let h := <[a := OModel through_model]> h in
    let self := set_through (VObj a) self in
    let* h := add_model_to_register self (through self) h in
    inr (self, h, VNone).

(** The [target] property.  [_target] is the cache attribute of the field:
    [None] while [hasattr(self, "_target")] is false.  The result is the
    target and the cache left on the field. *)
Definition target (self : field) (_target : option value) (h : store)
  : result (value * option value) :=
  match _target with
  | Some t => inr (t, _target)
  | None =>
      if isinstance_str (to self) then
        let* (_, models) := get_models h (registry self) in
        match models !! py_str (to self) with
        | Some m => inr (m, Some m)
        | None => inl (KeyError (py_str (to self)))
        end
      else inr (to self, Some (to self))
  end.

(** ** Vocabulary of the properties *)

(** The options that [ForeignKeyFieldFactory.__new__] spells out without
    popping them from [kwargs] first. *)
Definition unpopped_keywords : list string :=
  ["__type__"; "annotation"; "column_type"; "is_m2m"; "constraints"].

(** [kwargs] as [ManyToManyField.__new__] hands it to the base factory. *)
Definition merged_kwargs (to through : value) (kwargs : dict value)
  : dict value :=
  dict_set "null" (VBool true)
    (dict_set "null" (default VNone (dict_get "null" kwargs))
       (dict_set "through" through (dict_set "to" to kwargs))).

(** The options that [ManyToManyField.validate] accepts: those whose [related_name] is falsy or a
    string. *)
Definition related_name_accepted (kwargs : dict value) : Prop :=
  let related_name := default VNone (dict_get "related_name" kwargs) in
  truthy related_name = false ∨ isinstance_str related_name = true.

(** The field names an existing bridge model [a]: [through] is that class,
    or its name in the catalogue of the owner's registry. *)
Inductive explicit_through (h : store) (self : field) (a : nat) : Prop :=
| through_class :
    through self = VObj a → explicit_through h self a
| through_name s o owner_cls r models :
    through self = VStr s → s ≠ "" →
    owner self = VObj o → h !! o = Some (OModel owner_cls) →
    meta_registry (meta owner_cls) = VObj r →
    h !! r = Some (ORegistry models) →
    models !! s = Some (VObj a) →
    explicit_through h self a.

(** The catalogues of all the registries of a store. *)
Definition registries_of (h : store) : gmap nat (gmap string value) :=
  omap (λ o, match o with ORegistry models => Some models | _ => None end) h.

(** The bridge model once it is marked as a multi-relation table. *)
Definition mark_multi (related : string) (m : model) : model :=
  {| __name__ := __name__ m; __module__ := __module__ m;
     definitions := definitions m;
     meta := {| tablename := tablename (meta m);
                meta_registry := meta_registry (meta m);
                is_multi := true; multi_related := [related] |} |}.

(** ** Sample declarations: a registry at address 0 and the models [Team],
    [Member] and [Membership] at addresses 1, 2 and 3. *)
Definition sample_model (name table : string) : model :=
  {| __name__ := name; __module__ := "app"; definitions := [];
     meta := {| tablename := table; meta_registry := VObj 0;
                is_multi := false; multi_related := [] |} |}.

Definition Team : model := sample_model "Team" "teams".
Definition Member : model := sample_model "Member" "members".
Definition Membership : model := sample_model "Membership" "memberships".

Definition sample_store : store :=
  <[3 := OModel Membership]>
    (<[2 := OModel Member]>
       (<[1 := OModel Team]>
          (<[0 := ORegistry {["Membership" := VObj 3]}]> ∅))).

(** A field of [Team] declared as [ManyToManyField(Member)] with [owner] and
    [registry] filled in, and the same field with [through] given. *)
Definition members_field (through : value) : field :=
  {| __type__ := VExt "sqlalchemy.ForeignKey"; to := VObj 2;
     on_update := CASCADE; on_delete := RESTRICT; related_name := VNone;
     annotation := VExt "sqlalchemy.ForeignKey"; null := VBool true;
     comment := VNone; owner := VObj 1; server_default := VNone;
     server_onupdate := VNone; through := through; registry := VObj 0;
     column_type := VExt "sqlalchemy.ForeignKey"; is_m2m := VBool true;
     is_o2o := VBool false; is_fk := VBool false; constraints := [];
     extra := [] |}.

(** A field of [Team] with the given target, bridge and reverse name. *)
Definition sample_field (to through related_name : value) : field :=
  {| __type__ := VExt "sqlalchemy.ForeignKey"; to := to;
     on_update := CASCADE; on_delete := RESTRICT;
     related_name := related_name;
     annotation := VExt "sqlalchemy.ForeignKey"; null := VBool true;
     comment := VNone; owner := VObj 1; server_default := VNone;
     server_onupdate := VNone; through := through; registry := VObj 0;
     column_type := VExt "sqlalchemy.ForeignKey"; is_m2m := VBool true;
     is_o2o := VBool false; is_fk := VBool false; constraints := [];
     extra := [] |}.

End ManyToMany.

(** * Base model and reflected base model ([models/base.py]) *)
Module Base.

(** What [base.py] asks of a declared field: whether it is an instance of
    [BaseManyToManyForeignKeyField], and its [expand_relationship] hook
    (owned by the field base class, outside these files). *)
Record field_hooks := {
  isinstance_m2m : bool;
  expand_relationship : value → value
}.

(** A model class as [base.py] reads it.  [cls_id] is the identity of the
    class object; [fields] is [cls.fields]; [fields_mapping] lists the keys
    of [meta.fields_mapping]; [class_attrs] are the attributes found on the
    class itself.  Both mappings are assembled by the metaclass, outside
    these files, so they are kept apart here. *)
Record model_cls := {
  cls_id : nat;
  cls_name : string;
  pkname : string;
  fields : dict field_hooks;
  fields_mapping : list string;
  class_attrs : dict value
}.

(** An instance: its class and its attribute storage. *)
Record instance := {
  cls : model_cls;
  __dict__ : dict value
}.

(** [hasattr(self, key)]: instance storage first, then the class.  The
    properties [pk], [raw_query] and [table] are assumed not to be used as
    field names. *)
Definition hasattr (self : instance) (key : string) : bool :=
  dict_has key (__dict__ self) || dict_has key (class_attrs (cls self)).

(** [getattr(self, key)] *)
Definition getattr (self : instance) (key : string) : result value :=
  match dict_get key (__dict__ self) with
  | Some v => inr v
  | None =>
      match dict_get key (class_attrs (cls self)) with
      | Some v => inr v
      | None => inl (AttributeError key)
      end
  end.

(** [getattr(self, key, dflt)] *)
Definition getattr_default (self : instance) (key : string) (dflt : value)
  : value :=
  match getattr self key with
  | inr v => v
  | inl _ => dflt
  end.

(** Modelled from the spec: [edgy_setattr] (from [edgy.core.utils.functional])
    is not part of the sources at hand; per the spec the value "is written
    into the instance's backing attribute storage under the original key",
    with no interception. *)
Definition edgy_setattr (self : instance) (key : string) (v : value)
  : instance :=
  {| cls := cls self; __dict__ := dict_set key v (__dict__ self) |}.

(** The text of the [ValueError] raised for a keyword. *)
Definition invalid_keyword (key cls_name : string) : string :=
  "Invalid keyword " +:+ key +:+ " for class " +:+ cls_name.

(** [if "pk" in kwargs: kwargs[self.pkname] = kwargs.pop("pk")] *)
Definition rename_pk (c : model_cls) (kwargs : dict value) : dict value :=
  if dict_has "pk" kwargs then
    let '(v, kwargs) := dict_pop "pk" VNone kwargs in
    dict_set (pkname c) v kwargs
  else kwargs.

(** The dictionary comprehension that keeps the keys of
    [meta.fields_mapping]. *)
Definition keep_mapped (c : model_cls) (kwargs : dict value) : dict value :=
  filter (λ p, p.1 ∈ fields_mapping c) kwargs.

(** The [for key, value in kwargs.items()] loop.  [items] is what is left to
    visit; an iteration only rewrites the value under the key it visits, so
    the items still to come are those of the dictionary at loop entry. *)
Fixpoint setup_loop (self : instance) (items : list (string * value))
  (kwargs : dict value) : result (instance * dict value) :=
  match items with
  | [] => inr (self, kwargs)
  | (key, v) :: rest =>
      if negb (dict_has key (fields (cls self))) && negb (hasattr self key)
      then inl (ValueError (invalid_keyword key (cls_name (cls self))))
      else
        let self := edgy_setattr self key v in
        let* v' := getattr self key in
        setup_loop self rest (dict_set key v' kwargs)
  end.

(** [setup_model_fields_from_kwargs(self, kwargs)]: the instance after the
    call and the dictionary returned. *)
Definition setup_model_fields_from_kwargs (self : instance)
  (kwargs : dict value) : result (instance * dict value) :=
  let kwargs := rename_pk (cls self) kwargs in
  let kwargs := keep_mapped (cls self) kwargs in
  setup_loop self kwargs kwargs.

(** [pk], getter and setter of [EdgyBaseModel] *)
Definition pk (self : instance) : result value :=
  getattr self (pkname (cls self)).

Definition pk_set (self : instance) (v : value) : instance :=
  edgy_setattr self (pkname (cls self)) v.

(** [__eq__] *)
Definition __eq__ (self other : instance) : bool :=
  if negb (Nat.eqb (cls_id (cls self)) (cls_id (cls other))) then false
  else
    forallb
      (λ key, py_eqb (getattr_default self key VNone)
                     (getattr_default other key VNone))
      (keys (fields (cls self))).

(** [edgy_setattr(self, "__dict__", values)]: the storage is replaced. *)
Definition set_dict (self : instance) (values : dict value) : instance :=
  {| cls := cls self; __dict__ := values |}.

Section External.
(** [BaseModel.__init__] of the validation framework: the attribute
    storage it leaves on the new instance, or the error it raises. *)
Variable pydantic_init : model_cls → dict value → result (dict value).

(** [settings.many_to_many_relation.format(key=key)] *)
Variable many_to_many_relation : string → string.

(** [EdgyBaseModel.__init__]: the instance produced. *)
Definition __init__ (c : model_cls) (kwargs : dict value) : result instance :=
  let* d := pydantic_init c kwargs in
  let self := {| cls := c; __dict__ := d |} in
  let* (self, values) := setup_model_fields_from_kwargs self kwargs in
  inr (set_dict self values).

(** [__setattr__(self, key, value)], which the builtin [setattr] and plain
    attribute assignment go through. *)
Definition __setattr__ (self : instance) (key : string) (v : value)
  : result instance :=
  match dict_get key (fields (cls self)) with
  | Some field =>
      let* v :=
        (if isinstance_m2m field
         then getattr self (many_to_many_relation key)
         else inr (expand_relationship field v)) in
      inr (edgy_setattr self key v)
  | None => inr (edgy_setattr self key v)
  end.

(** [pk], getter and setter of [EdgyBaseReflectModel] *)
Definition Reflect_pk (self : instance) : value :=
  getattr_default self (pkname (cls self)) VNone.

Definition Reflect_pk_set (self : instance) (v : value) : result instance :=
  __setattr__ self (pkname (cls self)) v.
End External.

(** ** Reflection *)

(** The registry of a reflected model: its [_metadata] and its
    [sync_engine]. *)
Record registry := {
  _metadata : value;
  sync_engine : value
}.

(** The [meta] of a reflected model; [meta_registry] is [None] when no
    registry is set. *)
Record reflect_meta := {
  tablename : string;
  meta_registry : option registry
}.

Definition table_missing (tablename : string) : string :=
  "Table with the name " +:+ tablename +:+ " does not exist.".

Section Reflection.
(** [sqlalchemy.Table(tablename, metadata, autoload_with=engine)]: the
    table introspected from the database, or what the toolkit raises. *)
Variable Table_autoload : string → value → value → result value.

(** [reflect(cls, tablename, metadata)].  The engine is read inside the
    [try]; [except Exception] lets what is no [Exception] through. *)
Definition reflect (meta : reflect_meta) (tablename : string)
  (metadata : value) : result value :=
  let attempt :=
    match meta_registry meta with
    | Some r => Table_autoload tablename metadata (sync_engine r)
    | None => inl (AttributeError "sync_engine")
    end in
  match attempt with
  | inr table => inr table
  | inl e =>
      if is_Exception e
      then inl (ImproperlyConfigured (table_missing tablename) e)
      else inl e
  end.

(** [EdgyBaseReflectModel.build(cls)] *)
Definition build (meta : reflect_meta) : result value :=
  match meta_registry meta with
  | None => inl (AttributeError "_metadata")
  | Some r =>
      let metadata := _metadata r in
      let tablename := tablename meta in
      reflect meta tablename metadata
  end.
End Reflection.

(** ** Rendering, raw query, bulk update *)

Section Rendering.
(** [BaseModel.__getattr__] of the validation framework.  Python calls it
    when the lookup of an attribute ends in [AttributeError], which includes
    an [AttributeError] that leaves the getter of a property: it answers from
    the framework's private attributes and extras, or raises its own
    [AttributeError] for the name it was asked. *)
Variable BaseModel_getattr : instance → string → result value.

(** The expression [self.pk] on [EdgyBaseModel]: the getter of the property
    and, when the getter raises [AttributeError], the fall-back to
    [BaseModel.__getattr__] under the name [pk]. *)
Definition pk_attribute (self : instance) : result value :=
  match pk self with
  | inl (AttributeError _) => BaseModel_getattr self "pk"
  | other => other
  end.

(** [__str__] and [__repr__] of [EdgyBaseModel] *)
Definition __str__ (self : instance) : result string :=
  let* p := pk_attribute self in
  inr (cls_name (cls self) +:+ "(" +:+ pkname (cls self) +:+ "=" +:+
       py_str p +:+ ")").

Definition __repr__ (self : instance) : result string :=
  let* s := __str__ self in
  inr ("<" +:+ cls_name (cls self) +:+ ": " +:+ s +:+ ">").
End Rendering.

(** The same two methods on [EdgyBaseReflectModel], where [self.pk] is the
    getter with the [None] default. *)
Definition Reflect___str__ (self : instance) : string :=
  cls_name (cls self) +:+ "(" +:+ pkname (cls self) +:+ "=" +:+
  py_str (Reflect_pk self) +:+ ")".

Definition Reflect___repr__ (self : instance) : string :=
  "<" +:+ cls_name (cls self) +:+ ": " +:+ Reflect___str__ self +:+ ">".

(** [raw_query], getter and setter.  [__raw_query__] is the class attribute
    of that name ([None] unless a subclass sets it); [getattr] and
    [object.__setattr__] raise [TypeError] for a name that is no string.
    The setter writes under the name that the getter returns. *)
Definition raw_query (__raw_query__ : value) (self : instance)
  : result value :=
  match __raw_query__ with
  | VStr name => getattr self name
  | _ => inl (TypeError "attribute name must be string")
  end.

Definition raw_query_set (__raw_query__ : value) (self : instance)
  (v : value) : result instance :=
  let* name := raw_query __raw_query__ self in
  match name with
  | VStr n => inr (edgy_setattr self n v)
  | _ => inl (TypeError "attribute name must be string")
  end.

(** [extract_db_fields]; [related_names] is [self.meta.related_names]. *)
Definition extract_db_fields (related_names : list string) (self : instance)
  : dict value :=
  filter (λ p, p.1 ∉ related_names) (__dict__ self).

Section Update.
(** [settings.many_to_many_relation.format(key=key)] *)
Variable many_to_many_relation : string → string.

End Update.

(** ** Vocabulary of the properties *)

(** The test of the loop of [setup_model_fields_from_kwargs]: [key] is no
    declared field and no attribute of [self]. *)
Definition unknown_keyword (self : instance) (key : string) : bool :=
  negb (dict_has key (fields (cls self))) && negb (hasattr self key).


(** ** Sample declarations *)

(** A field that is no relationship: [expand_relationship] hands the value
    back. *)
Definition plain_field : field_hooks :=
  {| isinstance_m2m := false; expand_relationship := λ v, v |}.

(** A relationship field whose [expand_relationship] builds a stub object
    (here the object at address 9) from the raw key. *)
Definition stub_field : field_hooks :=
  {| isinstance_m2m := false; expand_relationship := λ _, VObj 9 |}.

Definition User : model_cls :=
  {| cls_id := 1; cls_name := "User"; pkname := "id";
     fields := [("id", plain_field); ("name", plain_field)];
     fields_mapping := ["id"; "name"]; class_attrs := [] |}.

(** A reflected class whose primary key is a relationship. *)
Definition Profile : model_cls :=
  {| cls_id := 3; cls_name := "Profile"; pkname := "id";
     fields := [("id", stub_field)];
     fields_mapping := ["id"]; class_attrs := [] |}.

(** A validation layer that, as [extra="allow"] asks, keeps every keyword as
    an attribute of the instance. *)
Definition permissive_init (c : model_cls) (kwargs : dict value)
  : result (dict value) := inr kwargs.


(** The validation layer of a class that declares [id] as an integer: a
    value given under [id] that is a string or an object is refused with
    [ValidationError]; every other keyword, [pk] among them, is no declared
    field and is kept as an attribute unvalidated ([extra="allow"]). *)
Definition integer_id_init (c : model_cls) (kwargs : dict value)
  : result (dict value) :=
  match dict_get "id" kwargs with
  | Some (VStr _) | Some (VObj _) | Some (VExt _) =>
      inl (Foreign "ValidationError" true "id")
  | _ => inr kwargs
  end.

(** [BaseModel.__getattr__] on an instance that has no private attributes
    and no extras: [AttributeError] for the name asked. *)
Definition no_extras (self : instance) (name : string) : result value :=
  inl (AttributeError name).

Definition sample_relation (key : string) : string := "_" +:+ key +:+ "_relation".

(** A database front end that knows no table at all. *)
Definition no_such_table (tablename : string) (metadata engine : value)
  : result value :=
  inl (Foreign "NoSuchTableError" true tablename).

Definition sample_meta : reflect_meta :=
  {| tablename := "users";
     meta_registry := Some {| _metadata := VExt "MetaData";
                              sync_engine := VExt "Engine" |} |}.

(** A many-to-many field. *)
Definition relation_field : field_hooks :=
  {| isinstance_m2m := true; expand_relationship := λ v, v |}.

(** A class with a relationship field [owner] and a many-to-many field
    [tags]. *)
Definition Article : model_cls :=
  {| cls_id := 4; cls_name := "Article"; pkname := "id";
     fields := [("id", plain_field); ("owner", stub_field);
                ("tags", relation_field)];
     fields_mapping := ["id"; "owner"; "tags"]; class_attrs := [] |}.

Definition no_registry_meta : reflect_meta :=
  {| tablename := "users"; meta_registry := None |}.

(** A database front end that finds every table. *)
Definition any_table (tablename : string) (metadata engine : value)
  : result value :=
  inr (VExt tablename).

End Base.

(** * Row materialisation ([models/row.py]) *)
Module Row.

(** [s.split("__")]: [cur] is the piece being read. *)
Fixpoint split_from (cur s : string) : list string :=
  match s with
  | EmptyString => [cur]
  | String "_" (String "_" rest) => cur :: split_from "" rest
  | String c rest => split_from (cur +:+ String c "") rest
  end.

Definition split_dunder (s : string) : list string := split_from "" s.

(** [should_ignore_related_name(cls, related_name, select_related)] *)
Definition should_ignore_related_name (related_name : string)
  (select_related : list string) : bool :=
  existsb
    (λ related_field, bool_decide (related_name ∈ split_dunder related_field))
    select_related.

(** A foreign key as [from_sqla_row] reads it: [foreign_key.target] and the
    keys of [target.fields]. *)
Record foreign_key := {
  target : value;
  target_fields : list string
}.

(** The inner loop [for column in cls.table.columns] of the second step:
    [columns] are the column names still to visit, [row[related]] raises
    when the row has no such column. *)
Fixpoint child_item_loop (related : string) (row : dict value)
  (model_related_fields : list string) (columns : list string)
  (child_item : dict value) : result (dict value) :=
  match columns with
  | [] => inr child_item
  | column :: rest =>
      if negb (bool_decide (column ∈ model_related_fields))
      then child_item_loop related row model_related_fields rest child_item
      else if negb (dict_has related child_item)
      then
        match dict_get related row with
        | Some v =>
            child_item_loop related row model_related_fields rest
              (dict_set column v child_item)
        | None => inl (KeyError related)
        end
      else child_item_loop related row model_related_fields rest child_item
  end.

(** [child_item] as handed to [model_related] with its entries unpacked,
    starting from [child_item = {}]. *)
Definition child_item_of (related : string) (fk : foreign_key)
  (columns : list string) (row : dict value) : result (dict value) :=
  child_item_loop related row (target_fields fk) columns [].

(** The second step of [from_sqla_row]: for each foreign key that is not
    ignored, [item[related] = model_related] applied to [child_item]; the
    call is recorded as the pair of the target and its keyword arguments. *)
Fixpoint populate_related (foreign_key_fields : dict foreign_key)
  (select_related columns : list string) (row : dict value)
  (item : dict (value * dict value)) : result (dict (value * dict value)) :=
  match foreign_key_fields with
  | [] => inr item
  | (related, fk) :: rest =>
      if should_ignore_related_name related select_related
      then populate_related rest select_related columns row item
      else
        let* child_item := child_item_of related fk columns row in
        populate_related rest select_related columns row
          (dict_set related (target fk, child_item) item)
  end.

(** ** The whole of [from_sqla_row] *)

(** ["__" in s] together with [s.split("__", 1)]: the text before and the
    text after the first ["__"], or [None] when [s] has none. *)
Fixpoint split_first_from (cur s : string) : option (string * string) :=
  match s with
  | EmptyString => None
  | String "_" (String "_" rest) => Some (cur, rest)
  | String c rest => split_first_from (cur +:+ String c "") rest
  end.

Definition split_first (s : string) : option (string * string) :=
  split_first_from "" s.

(** What [item] holds: a value of the row, or an instance.  An instance is
    recorded as the constructor call that makes it, the class and its
    keyword arguments; the constructor itself is not run here. *)
#[warnings="-register-all"]
Inductive cell :=
| Plain (v : value)
| Instance (cls : value) (kwargs : list (string * cell)).

(** A model class as [from_sqla_row] reads it.  [fields] maps a field name
    to what [cls.fields[name].target] evaluates to (a class, or the
    exception the property raises); [related_from] maps the name of a
    reverse accessor on the class to its [related_from]; [columns] are the
    names of [cls.table.columns], in order. *)
Record row_cls := {
  fields : dict (result value);
  related_from : dict value;
  foreign_key_fields : dict foreign_key;
  columns : list string
}.

(** [try: cls.fields[name].target  except KeyError:
    getattr(cls, name).related_from] *)
Definition related_model (cls : row_cls) (name : string) : result value :=
  let fallback :=
    match dict_get name (related_from cls) with
    | Some m => inr m
    | None => inl (AttributeError name)
    end in
  match dict_get name (fields cls) with
  | Some (inr m) => inr m
  | Some (inl (KeyError _)) => fallback
  | Some (inl e) => inl e
  | None => fallback
  end.

(** The second step again, on the [item] that the first step hands over. *)
Fixpoint lazy_stubs (foreign_key_fields : dict foreign_key)
  (select_related columns : list string) (row : dict value)
  (item : dict cell) : result (dict cell) :=
  match foreign_key_fields with
  | [] => inr item
  | (related, fk) :: rest =>
      if should_ignore_related_name related select_related
      then lazy_stubs rest select_related columns row item
      else
        let* child_item := child_item_of related fk columns row in
        lazy_stubs rest select_related columns row
          (dict_set related
             (Instance (target fk) (prod_map id Plain <$> child_item)) item)
  end.

(** The third step: the plain columns.  [row[column]] raises when the row
    has no such column. *)
Fixpoint pull_columns (field_names columns : list string) (row : dict value)
  (item : dict cell) : result (dict cell) :=
  match columns with
  | [] => inr item
  | column :: rest =>
      if negb (bool_decide (column ∈ field_names))
      then pull_columns field_names rest row item
      else if negb (dict_has column item)
      then
        match dict_get column row with
        | Some v =>
            pull_columns field_names rest row (dict_set column (Plain v) item)
        | None => inl (KeyError column)
        end
      else pull_columns field_names rest row item
  end.

Section Materialise.
(** The recursive call [model_cls.from_sqla_row(row, select_related=...)] on
    the related class: the instance it returns, or what it raises. *)
Variable from_sqla_row_of : value → dict value → list string → result cell.

(** The first step: the loop over [select_related]. *)
Fixpoint eager_load (cls : row_cls) (row : dict value)
  (select_related : list string) (item : dict cell) : result (dict cell) :=
  match select_related with
  | [] => inr item
  | related :: rest =>
      match split_first related with
      | Some (first_part, remainder) =>
          let* model_cls := related_model cls first_part in
          let* inst := from_sqla_row_of model_cls row [remainder] in
          eager_load cls row rest (dict_set first_part inst item)
      | None =>
          let* model_cls := related_model cls related in
          let* inst := from_sqla_row_of model_cls row [] in
          eager_load cls row rest (dict_set related inst item)
      end
  end.

(** [from_sqla_row(cls, row, select_related)]; [cls_ref] is the class
    object [cls], [select_related] is the list after [select_related or []]. *)
Definition from_sqla_row (cls_ref : value) (cls : row_cls) (row : dict value)
  (select_related : list string) : result cell :=
  let* item := eager_load cls row select_related [] in
  let* item :=
    lazy_stubs (foreign_key_fields cls) select_related (columns cls) row
      item in
  let* item := pull_columns (keys (fields cls)) (columns cls) row item in
  inr (Instance cls_ref item).
End Materialise.

(** ** Vocabulary of the properties *)

(** The key under which the first step stores what it loads for a path. *)
Definition eager_key (related : string) : string :=
  match split_first related with
  | Some (first_part, _) => first_part
  | None => related
  end.

(** A column that the third step has to copy and cannot: a declared field
    of the model that [item] does not hold and for which the row has no
    value. *)
Definition uncopyable (field_names : list string) (row : dict value)
  (item : dict cell) (column : string) : bool :=
  bool_decide (column ∈ field_names) && negb (dict_has column item) &&
  match dict_get column row with Some _ => false | None => true end.

(** ** Sample declarations: a table [books] with the columns [id], [name]
    and [author], the last one a foreign key to [Author] (fields [id] and
    [name]), and one of its rows. *)
Definition author_key : foreign_key :=
  {| target := VObj 2; target_fields := ["id"; "name"] |}.

Definition book_columns : list string := ["id"; "name"; "author"].

Definition book_row : dict value :=
  [("id", VInt 1); ("name", VStr "Dune"); ("author", VInt 7)].

(** The class [Book] of that table, with the declared fields [id], [name]
    and [author], and [Author] at address 2. *)
Definition Book : row_cls :=
  {| fields := [("id", inl (AttributeError "target"));
                ("name", inl (AttributeError "target"));
                ("author", inr (VObj 2))];
     related_from := [];
     foreign_key_fields := [("author", author_key)];
     columns := book_columns |}.

(** A recursive call that answers with an instance without arguments. *)
Definition bare_instance (model_cls : value) (row : dict value)
  (select_related : list string) : result cell :=
  inr (Instance model_cls []).

End Row.

(** * Facts about values and dictionaries *)
Module PyFacts.

Lemma py_eqb_refl (v : value) : py_eqb v v = true.
Proof.
  destruct v as [| b | z | s | a | n]; simpl.
  - reflexivity.
  - by destruct b.
  - apply Z.eqb_refl.
  - apply String.eqb_refl.
  - apply Nat.eqb_refl.
  - apply String.eqb_refl.
Qed.

Section Dict.
Context {V : Type}.
Implicit Types (d : dict V) (k : string) (v : V).

Lemma dict_get_set_eq k v d : dict_get k (dict_set k v d) = Some v.
Proof.
  induction d as [| [k' v'] d IH]; simpl.
  - by rewrite decide_True.
  - destruct (decide (k' = k)) as [-> | Hne]; simpl.
    + by rewrite decide_True.
    + by rewrite decide_False.
Qed.

Lemma dict_get_set_ne k k' v d :
  k ≠ k' → dict_get k' (dict_set k v d) = dict_get k' d.
Proof.
  intros Hne. induction d as [| [k0 v0] d IH]; simpl.
  - by rewrite decide_False.
  - destruct (decide (k0 = k)) as [-> | Hne0]; simpl.
    + by rewrite !decide_False.
    + destruct (decide (k0 = k')); [done | apply IH].
Qed.

Lemma dict_get_del_ne k k' d :
  k ≠ k' → dict_get k' (dict_del k d) = dict_get k' d.
Proof.
  intros Hne. unfold dict_del.
  induction d as [| [k0 v0] d IH]; [done |].
  rewrite filter_cons. simpl.
  destruct (decide (k0 ≠ k)) as [H0 | H0]; simpl.
  - destruct (decide (k0 = k')); [done | apply IH].
  - apply dec_stable in H0. subst k0. by rewrite decide_False.
Qed.

Lemma dict_get_None k d : dict_get k d = None ↔ k ∉ keys d.
Proof.
  unfold keys. induction d as [| [k0 v0] d IH]; simpl.
  - split; [intros _; apply not_elem_of_nil | done].
  - rewrite not_elem_of_cons. destruct (decide (k0 = k)) as [-> | Hne].
    + split; [done | intros [? _]; done].
    + rewrite IH. intuition congruence.
Qed.

Lemma dict_has_get k d : dict_has k d = false ↔ dict_get k d = None.
Proof.
  unfold dict_has. rewrite bool_decide_eq_false. symmetry.
  apply dict_get_None.
Qed.

Lemma keys_dict_del k k' d : k' ∈ keys (dict_del k d) ↔ k' ≠ k ∧ k' ∈ keys d.
Proof.
  unfold keys, dict_del. rewrite !list_elem_of_fmap. split.
  - intros ([k0 v0] & -> & Hin). apply list_elem_of_filter in Hin as [Hk Hin].
    split; [done |]. by exists (k0, v0).
  - intros [Hne ([k0 v0] & -> & Hin)]. exists (k0, v0). split; [done |].
    by apply list_elem_of_filter.
Qed.

Lemma keys_dict_set k k' v d :
  k' ∈ keys (dict_set k v d) ↔ k' = k ∨ k' ∈ keys d.
Proof.
  unfold keys. induction d as [| [k0 v0] d IH]; simpl.
  - rewrite list_elem_of_singleton, elem_of_nil. tauto.
  - destruct (decide (k0 = k)) as [-> | Hne]; simpl.
    + rewrite !elem_of_cons. tauto.
    + rewrite !elem_of_cons, IH. tauto.
Qed.

(** A key that is not there yet goes last. *)
Lemma dict_set_fresh k v d : k ∉ keys d → dict_set k v d = (d ++ [(k, v)])%list.
Proof.
  unfold keys. induction d as [| [k0 v0] d IH]; simpl; [done |].
  rewrite not_elem_of_cons. intros [Hne Hnin].
  rewrite decide_False by done. by rewrite IH.
Qed.

(** Writing back the value a key already has changes nothing. *)
Lemma dict_set_same k v d : dict_get k d = Some v → dict_set k v d = d.
Proof.
  induction d as [| [k0 v0] d IH]; simpl; [done |].
  destruct (decide (k0 = k)) as [-> | Hne].
  - by intros [= ->].
  - intros H. by rewrite IH.
Qed.

Lemma dict_get_app k (d1 d2 : dict V) :
  dict_get k (d1 ++ d2)%list =
  match dict_get k d1 with
  | Some v => Some v
  | None => dict_get k d2
  end.
Proof.
  induction d1 as [| [k0 v0] d1 IH]; simpl; [done |].
  by destruct (decide (k0 = k)).
Qed.

(** With one entry per key, every entry is what its key looks up. *)
Lemma dict_get_elem k v d :
  NoDup (keys d) → (k, v) ∈ d → dict_get k d = Some v.
Proof.
  unfold keys. induction d as [| [k0 v0] d IH]; simpl.
  - intros _ H. by apply elem_of_nil in H.
  - rewrite NoDup_cons, elem_of_cons. intros [Hnin Hnd] [Heq | Hin].
    + injection Heq as -> ->. by rewrite decide_True.
    + destruct (decide (k0 = k)) as [-> | Hne]; [| by apply IH].
      exfalso. apply Hnin. apply list_elem_of_fmap. by exists (k, v).
Qed.

Lemma dict_del_absent k d : k ∉ keys d → dict_del k d = d.
Proof.
  unfold keys, dict_del. induction d as [| [k0 v0] d IH]; [done |].
  simpl. rewrite not_elem_of_cons. intros [Hne Hnin].
  rewrite filter_cons_True by (simpl; congruence). by rewrite IH.
Qed.

(** Writing every entry of a dictionary back into it changes nothing. *)
Lemma dict_set_all_same (items d : dict V) :
  (∀ k v, (k, v) ∈ items → dict_get k d = Some v) →
  foldl (λ acc p, dict_set p.1 p.2 acc) d items = d.
Proof.
  induction items as [| [k v] items IH]; simpl; [done |].
  intros H. rewrite dict_set_same by (apply H, list_elem_of_here).
  apply IH. intros k' v' Hin. apply H. by apply list_elem_of_further.
Qed.
End Dict.

Lemma find_same {A} (p q : A → bool) (l : list A) :
  (∀ x, p x = q x) → List.find p l = List.find q l.
Proof.
  intros H. induction l as [| x l IH]; simpl; [done |].
  by rewrite H, IH.
Qed.

Lemma find_none_of {A} (p : A → bool) (l : list A) :
  (∀ x, x ∈ l → p x = false) → List.find p l = None.
Proof.
  induction l as [| x l IH]; simpl; [done |].
  intros H. rewrite (H x) by apply list_elem_of_here.
  apply IH. intros y Hy. apply H. by apply list_elem_of_further.
Qed.

End PyFacts.

(** * Properties of the field factory and of the bridge model *)
Module ManyToManyProofs.
Import ManyToMany PyFacts.

Lemma ManyToManyField_new_eq to through kwargs :
  ManyToManyField_new to through kwargs =
    (if truthy (default VNone (dict_get "null" kwargs))
     then [null_warning] else [],
     ForeignKeyFieldFactory_new ManyToManyField
       (merged_kwargs to through kwargs)).
Proof. reflexivity. Qed.

(** The base factory reads [null] and [related_name] off the [kwargs] it was
    called with. *)
Lemma factory_reads_kwargs cls kwargs f :
  ForeignKeyFieldFactory_new cls kwargs = inr f →
  null f = default (VBool false) (dict_get "null" kwargs) ∧
  related_name f = default VNone (dict_get "related_name" kwargs).
Proof.
  unfold ForeignKeyFieldFactory_new.
  destruct (validate cls kwargs) as [e | local]; simpl; [done |].
  destruct (List.find _ _); [done |].
  intros [= <-]; simpl.
  by rewrite !dict_get_del_ne.
Qed.

(** The factory returns a field as soon as [validate] accepts the options and
    none of them repeats a keyword that is spelled out but not popped. *)
Lemma factory_returns cls kwargs local :
  validate cls kwargs = inr local →
  (∀ k, k ∈ keys kwargs → k ∉ unpopped_keywords) →
  ∃ f, ForeignKeyFieldFactory_new cls kwargs = inr f.
Proof.
  intros Hv Hfree. unfold ForeignKeyFieldFactory_new.
  rewrite Hv; simpl.
  rewrite find_none_of; [eauto |].
  intros k Hk. apply bool_decide_eq_false. intros Hns.
  rewrite !keys_dict_del in Hk.
  destruct Hk as (? & ? & ? & ? & ? & ? & ? & ? & ? & ? & ? & ? & ? & Hin).
  apply (Hfree k Hin).
  unfold namespace_keywords in Hns. unfold unpopped_keywords.
  rewrite !elem_of_cons in Hns. rewrite !elem_of_cons.
  intuition congruence.
Qed.

Lemma merged_null to through kwargs :
  dict_get "null" (merged_kwargs to through kwargs) = Some (VBool true).
Proof. apply dict_get_set_eq. Qed.

Lemma merged_related_name to through kwargs :
  dict_get "related_name" (merged_kwargs to through kwargs) =
  dict_get "related_name" kwargs.
Proof. unfold merged_kwargs. by rewrite !dict_get_set_ne. Qed.

Lemma merged_keys to through kwargs k :
  k ∈ keys (merged_kwargs to through kwargs) →
  k ∈ keys kwargs ∨ k ∈ ["to"; "through"; "null"].
Proof.
  unfold merged_kwargs. rewrite !keys_dict_set, !elem_of_cons. tauto.
Qed.

Lemma validate_accepts kwargs :
  related_name_accepted kwargs →
  ∃ local, ManyToManyField_validate kwargs = inr local.
Proof.
  unfold related_name_accepted, ManyToManyField_validate. simpl.
  intros [-> | ->]; simpl; [eauto |].
  rewrite andb_false_r. eauto.
Qed.

(** [validate] does lower-case the name, in the dictionary it was given. *)
Example validate_lowers_its_copy :
  ManyToManyField_validate [("related_name", VStr "Members")] =
  inr [("related_name", VStr "members")].
Proof. reflexivity. Qed.

(** C5: a many-to-many field is built with [null] forced to [True].  Whenever
    [related_name] is acceptable and no option repeats a spelled-out
    keyword, [ManyToManyField] returns a field whose [null] is [True]; the
    warning is printed exactly when the caller's [null] is truthy, so never
    when [null] is not passed. *)
Theorem m2m_null_forced_true to through kwargs :
  related_name_accepted kwargs →
  (∀ k, k ∈ keys kwargs → k ∉ unpopped_keywords) →
  ∃ f,
    ManyToManyField_new to through kwargs =
      (if truthy (default VNone (dict_get "null" kwargs))
       then [null_warning] else [], inr f) ∧
    null f = VBool true ∧
    (dict_has "null" kwargs = false →
     (ManyToManyField_new to through kwargs).1 = []).
Proof.
  intros Hrn Hfree. rewrite ManyToManyField_new_eq.
  destruct (validate_accepts (merged_kwargs to through kwargs)) as [local Hv].
  { unfold related_name_accepted. by rewrite merged_related_name. }
  destruct (factory_returns ManyToManyField _ local Hv) as [f Hf].
  { intros k Hk. apply merged_keys in Hk as [Hk | Hk]; [by apply Hfree |].
    unfold unpopped_keywords. rewrite !elem_of_cons in Hk.
    rewrite !not_elem_of_cons.
    destruct Hk as [-> | [-> | [-> | Hk]]];
      [| | | by apply elem_of_nil in Hk];
      repeat split; try discriminate; apply not_elem_of_nil. }
  exists f. rewrite Hf. split; [done |]. split.
  - apply factory_reads_kwargs in Hf as [-> _]. by rewrite merged_null.
  - intros Hno. apply dict_has_get in Hno. simpl. by rewrite Hno.
Qed.

Lemma m2m_null_forced_true_witness :
  ∃ f,
    ManyToManyField_new (VObj 2) VNone [("null", VBool true)] =
      ([null_warning], inr f) ∧
    null f = VBool true.
Proof.
  destruct (m2m_null_forced_true (VObj 2) VNone [("null", VBool true)])
    as (f & Hf & Hnull & _).
  - left. reflexivity.
  - intros k Hk. apply list_elem_of_singleton in Hk as ->.
    unfold unpopped_keywords. rewrite !not_elem_of_cons.
    repeat split; try discriminate. apply not_elem_of_nil.
  - exists f. split; [exact Hf | exact Hnull].
Defined.

(** The field carries [related_name] exactly as the caller gave it. *)
Lemma m2m_related_name_as_given to through kwargs f :
  (ManyToManyField_new to through kwargs).2 = inr f →
  related_name f = default VNone (dict_get "related_name" kwargs).
Proof.
  rewrite ManyToManyField_new_eq. simpl. intros Hf.
  apply factory_reads_kwargs in Hf as [_ ->]. by rewrite merged_related_name.
Qed.

(** C2, at [ManyToManyField(to, related_name="Members")]: the field is built
    and its [related_name] is still ["Members"], not the lower-cased
    ["members"]; [validate] lower-cased the entry of its own copy of the
    options only. *)
Theorem m2m_related_name_Members_not_lowered :
  ∃ f,
    ManyToManyField_new (VObj 2) VNone [("related_name", VStr "Members")] =
      ([], inr f) ∧
    related_name f = VStr "Members" ∧
    related_name f ≠ VStr (lower "Members").
Proof.
  eexists. split; [reflexivity |]. split; [reflexivity | discriminate].
Qed.

(** ** The bridge model *)

Lemma get_model_at h a m attr :
  h !! a = Some (OModel m) → get_model h (VObj a) attr = inr m.
Proof. intros H. simpl. by rewrite H. Qed.

Lemma get_models_at h r models :
  h !! r = Some (ORegistry models) → get_models h (VObj r) = inr (r, models).
Proof. intros H. simpl. by rewrite H. Qed.

(** Naming rules of the synthesised bridge model, for a field without
    [through] whose owner, target and registry are in the store: the call
    allocates one new class, stores it in [self.through], enters it in the
    catalogue of [self.registry] under its name and returns [None]. *)
Lemma create_through_model_synthesises self h o t r owner_cls to_cls models :
  truthy (through self) = false →
  owner self = VObj o → h !! o = Some (OModel owner_cls) →
  to self = VObj t → h !! t = Some (OModel to_cls) →
  registry self = VObj r → h !! r = Some (ORegistry models) →
  let owner_name := __name__ owner_cls in
  let to_name := __name__ to_cls in
  let class_name := owner_name +:+ to_name in
  ∃ a bridge,
    h !! a = None ∧
    create_through_model self h =
      inr (set_through (VObj a) self,
           <[r := ORegistry (<[class_name := VObj a]> models)]>
             (<[a := OModel bridge]> h),
           VNone) ∧
    __name__ bridge = class_name ∧
    tablename (meta bridge) =
      lower (lower owner_name +:+ "s_" +:+ to_name +:+ "s") ∧
    meta_registry (meta bridge) = VObj r ∧
    is_multi (meta bridge) = true ∧
    multi_related (meta bridge) = [lower to_name] ∧
    definitions bridge =
      dict_set (lower to_name)
        (ForeignKey (VObj t) true CASCADE
           (if truthy (related_name self) then py_str (related_name self)
            else lower to_name +:+ "_" +:+ lower class_name +:+ "s_set"))
        (dict_set (lower owner_name)
           (ForeignKey (VObj o) true CASCADE
              (if truthy (related_name self)
               then py_str (related_name self) +:+ "_" +:+
                    lower class_name +:+ "s_set"
               else lower owner_name +:+ "_" +:+
                    lower class_name +:+ "s_set"))
           [("id", IntegerField true)]).
Proof.
  intros Hth Ho Hoc Ht Htc Hr Hrc owner_name to_name class_name.
  assert (Hfresh : h !! fresh (dom h) = None).
  { apply not_elem_of_dom. apply is_fresh. }
  assert (Hra : fresh (dom h) ≠ r) by (intros E; rewrite E in Hfresh; congruence).
  eexists (fresh (dom h)), _. split; [exact Hfresh |]. split.
  - unfold create_through_model. rewrite Hth, Ho, Ht.
    rewrite (get_model_at _ _ _ _ Hoc), (get_model_at _ _ _ _ Htc). simpl.
    unfold add_model_to_register. simpl. rewrite Hr. simpl.
    rewrite lookup_insert_ne by done. rewrite Hrc. simpl.
    rewrite lookup_insert_eq. simpl. reflexivity.
  - repeat split; reflexivity.
Qed.

(** C6: owner [Team], target [Member], no [through], no [related_name].  The
    call synthesises the class [TeamMember] with table name [teams_members],
    an auto-incrementing integer primary key [id], and the nullable,
    cascade-on-delete foreign keys [team] (reverse name
    [team_teammembers_set]) and [member] (reverse name
    [member_teammembers_set]). *)
Theorem bridge_of_Team_and_Member self h o t r owner_cls to_cls models :
  truthy (through self) = false →
  truthy (related_name self) = false →
  owner self = VObj o → h !! o = Some (OModel owner_cls) →
  __name__ owner_cls = "Team" →
  to self = VObj t → h !! t = Some (OModel to_cls) →
  __name__ to_cls = "Member" →
  registry self = VObj r → h !! r = Some (ORegistry models) →
  ∃ a self' h' bridge,
    create_through_model self h = inr (self', h', VNone) ∧
    through self' = VObj a ∧
    h' !! a = Some (OModel bridge) ∧
    __name__ bridge = "TeamMember" ∧
    tablename (meta bridge) = "teams_members" ∧
    definitions bridge =
      [("id", IntegerField true);
       ("team", ForeignKey (VObj o) true CASCADE "team_teammembers_set");
       ("member", ForeignKey (VObj t) true CASCADE "member_teammembers_set")] ∧
    (is_integer <$> dict_get "id" (definitions bridge)) = Some true ∧
    (is_primary_key <$> dict_get "id" (definitions bridge)) = Some true ∧
    (autoincrement <$> dict_get "id" (definitions bridge)) = Some true.
Proof.
  intros Hth Hrn Ho Hoc Hon Ht Htc Htn Hr Hrc.
  destruct (create_through_model_synthesises self h o t r owner_cls to_cls
              models Hth Ho Hoc Ht Htc Hr Hrc)
    as (a & bridge & Hnew & Hrun & Hname & Htab & _ & _ & _ & Hdefs).
  rewrite Hon, Htn, Hrn in *.
  exists a, (set_through (VObj a) self). eexists. exists bridge.
  split; [exact Hrun |]. split; [reflexivity |]. split.
  { rewrite lookup_insert_ne by (intros ->; congruence).
    apply lookup_insert_eq. }
  rewrite Hname, Htab, Hdefs. repeat split; reflexivity.
Qed.

Lemma bridge_of_Team_and_Member_witness :
  ∃ a self' h' bridge,
    create_through_model (members_field VNone) sample_store =
      inr (self', h', VNone) ∧
    through self' = VObj a ∧
    h' !! a = Some (OModel bridge) ∧
    __name__ bridge = "TeamMember" ∧
    tablename (meta bridge) = "teams_members".
Proof.
  destruct (bridge_of_Team_and_Member (members_field VNone) sample_store
              1 2 0 Team Member {["Membership" := VObj 3]})
    as (a & self' & h' & bridge & H1 & H2 & H3 & H4 & H5 & _);
    try reflexivity.
  exists a, self', h', bridge. repeat split; assumption.
Defined.

(** ** An explicit bridge model *)

Lemma set_meta_at h a m upd :
  h !! a = Some (OModel m) →
  set_meta h (VObj a) upd =
    inr (<[a := OModel {| __name__ := __name__ m; __module__ := __module__ m;
                          definitions := definitions m;
                          meta := upd (meta m) |}]> h).
Proof. intros H. simpl. by rewrite H. Qed.

Lemma truthy_nonempty s : s ≠ "" → truthy (VStr s) = true.
Proof.
  intros Hs. simpl. apply negb_true_iff. by apply String.eqb_neq.
Qed.

Lemma set_through_same self v : through self = v → set_through v self = self.
Proof. intros <-. by destruct self. Qed.

(** With an existing bridge model [a] and a target in the store, the call
    marks [a] as a multi-relation table in place, leaves [a] in
    [self.through] and returns it. *)
Lemma create_through_model_explicit self h a bridge t to_cls :
  explicit_through h self a →
  h !! a = Some (OModel bridge) →
  to self = VObj t → h !! t = Some (OModel to_cls) →
  create_through_model self h =
    inr (set_through (VObj a) self,
         <[a := OModel (mark_multi (lower (__name__ to_cls)) bridge)]> h,
         VObj a).
Proof.
  intros Hex Ha Ht Htc.
  assert (Htail : ∀ h1 : store,
            h1 = <[a := OModel
                     {| __name__ := __name__ bridge;
                        __module__ := __module__ bridge;
                        definitions := definitions bridge;
                        meta := {| tablename := tablename (meta bridge);
                                   meta_registry := meta_registry (meta bridge);
                                   is_multi := true;
                                   multi_related := multi_related (meta bridge)
                                |} |}]> h →
            ∃ to_cls', h1 !! t = Some (OModel to_cls') ∧
                       __name__ to_cls' = __name__ to_cls).
  { intros h1 ->. destruct (decide (t = a)) as [-> | Hne].
    - rewrite lookup_insert_eq. eexists. split; [done |]. simpl. congruence.
    - rewrite lookup_insert_ne by done. eauto. }
  unfold create_through_model.
  destruct Hex as [Hth | s o owner_cls r models Hth Hs Ho Hoc Hr Hrc Hm].
  - rewrite Hth. cbn [truthy isinstance_str bind].
    rewrite Hth, (set_meta_at _ _ _ _ Ha). cbn [bind]. rewrite Ht.
    destruct (Htail _ eq_refl) as (to_cls' & Hl & Hn).
    rewrite (get_model_at _ _ _ _ Hl). cbn [bind].
    rewrite (set_meta_at _ _ _ _ (lookup_insert_eq _ _ _)). cbn [bind].
    rewrite insert_insert_eq, Hn.
    rewrite set_through_same by done. reflexivity.
  - rewrite Hth, (truthy_nonempty s Hs). cbn [isinstance_str bind py_str].
    rewrite Ho, (get_model_at _ _ _ _ Hoc). cbn [bind].
    rewrite Hr, (get_models_at _ _ _ Hrc). cbn [bind].
    rewrite Hm. cbn [bind set_through through to].
    rewrite (set_meta_at _ _ _ _ Ha). cbn [bind]. rewrite Ht.
    destruct (Htail _ eq_refl) as (to_cls' & Hl & Hn).
    rewrite (get_model_at _ _ _ _ Hl). cbn [bind].
    rewrite (set_meta_at _ _ _ _ (lookup_insert_eq _ _ _)). cbn [bind].
    rewrite insert_insert_eq, Hn. reflexivity.
Qed.

Lemma registries_of_insert_model (h : store) a m m' :
  h !! a = Some (OModel m) →
  registries_of (<[a := OModel m']> h) = registries_of h.
Proof.
  intros Ha. apply map_eq. intros i. unfold registries_of.
  rewrite !lookup_omap. destruct (decide (i = a)) as [-> | Hne].
  - by rewrite lookup_insert_eq, Ha.
  - by rewrite lookup_insert_ne.
Qed.

(** C7: with an explicit bridge model, two calls in a row return the same
    class object [a]; the second call changes neither the field nor the
    store; no object is allocated and every registry catalogue is what it
    was before the first call. *)
Theorem explicit_through_twice self h a bridge t to_cls :
  explicit_through h self a →
  h !! a = Some (OModel bridge) →
  to self = VObj t → h !! t = Some (OModel to_cls) →
  ∃ self1 h1,
    create_through_model self h = inr (self1, h1, VObj a) ∧
    create_through_model self1 h1 = inr (self1, h1, VObj a) ∧
    dom h1 = dom h ∧
    registries_of h1 = registries_of h.
Proof.
  intros Hex Ha Ht Htc.
  pose proof (create_through_model_explicit self h a bridge t to_cls
                Hex Ha Ht Htc) as Hfirst.
  eexists _, _. split; [exact Hfirst |].
  set (b1 := mark_multi (lower (__name__ to_cls)) bridge).
  assert (∃ to_cls', (<[a := OModel b1]> h) !! t = Some (OModel to_cls') ∧
                     __name__ to_cls' = __name__ to_cls)
    as (to_cls' & Hl & Hn).
  { destruct (decide (t = a)) as [-> | Hne].
    - rewrite lookup_insert_eq. eexists. split; [done |]. simpl. congruence.
    - rewrite lookup_insert_ne by done. eauto. }
  split; [| split].
  - rewrite (create_through_model_explicit
               (set_through (VObj a) self) (<[a := OModel b1]> h)
               a b1 t to_cls');
      [| by apply through_class | apply lookup_insert_eq | exact Ht | exact Hl].
    rewrite Hn, insert_insert_eq. reflexivity.
  - apply dom_insert_lookup_L. by rewrite Ha.
  - by eapply registries_of_insert_model.
Qed.

Lemma explicit_through_twice_witness :
  ∃ self1 h1,
    create_through_model (members_field (VStr "Membership")) sample_store =
      inr (self1, h1, VObj 3) ∧
    create_through_model self1 h1 = inr (self1, h1, VObj 3) ∧
    dom h1 = dom sample_store ∧
    registries_of h1 = registries_of sample_store.
Proof.
  apply (explicit_through_twice (members_field (VStr "Membership"))
           sample_store 3 Membership 2 Member); try reflexivity.
  apply (through_name _ _ _ "Membership" 1 Team 0
           {["Membership" := VObj 3]}); try reflexivity.
  discriminate.
Defined.

(** C10: what [create_through_model] returns.  Without [through] the call
    allocates a new class, stores it in [self.through], enters it in the
    catalogue of [self.registry] under its name, and returns [None]; with an
    explicit bridge model it returns that model. *)
Theorem create_through_model_returns self h o t r owner_cls to_cls models :
  owner self = VObj o → h !! o = Some (OModel owner_cls) →
  to self = VObj t → h !! t = Some (OModel to_cls) →
  registry self = VObj r → h !! r = Some (ORegistry models) →
  (truthy (through self) = false →
   ∃ a bridge h' models',
     h !! a = None ∧
     create_through_model self h =
       inr (set_through (VObj a) self, h', VNone) ∧
     h' !! a = Some (OModel bridge) ∧
     h' !! r = Some (ORegistry models') ∧
     models' !! __name__ bridge = Some (VObj a)) ∧
  (∀ a bridge,
     explicit_through h self a → h !! a = Some (OModel bridge) →
     ∃ self' h',
       create_through_model self h = inr (self', h', VObj a) ∧
       through self' = VObj a).
Proof.
  intros Ho Hoc Ht Htc Hr Hrc. split.
  - intros Hth.
    destruct (create_through_model_synthesises self h o t r owner_cls to_cls
                models Hth Ho Hoc Ht Htc Hr Hrc)
      as (a & bridge & Hnew & Hrun & Hname & _).
    exists a, bridge. eexists _, _. split; [exact Hnew |].
    split; [exact Hrun |]. split; [| split].
    + rewrite lookup_insert_ne by (intros ->; congruence).
      apply lookup_insert_eq.
    + apply lookup_insert_eq.
    + rewrite Hname. apply lookup_insert_eq.
  - intros a bridge Hex Ha.
    rewrite (create_through_model_explicit self h a bridge t to_cls
               Hex Ha Ht Htc).
    eexists _, _. split; reflexivity.
Qed.

Lemma create_through_model_returns_witness :
  (∃ a bridge h' models',
     sample_store !! a = None ∧
     create_through_model (members_field VNone) sample_store =
       inr (set_through (VObj a) (members_field VNone), h', VNone) ∧
     h' !! a = Some (OModel bridge) ∧
     h' !! 0 = Some (ORegistry models') ∧
     models' !! __name__ bridge = Some (VObj a)) ∧
  (∃ self' h',
     create_through_model (members_field (VObj 3)) sample_store =
       inr (self', h', VObj 3) ∧
     through self' = VObj 3).
Proof.
  split.
  - apply (create_through_model_returns (members_field VNone) sample_store
             1 2 0 Team Member {["Membership" := VObj 3]});
      reflexivity.
  - apply (create_through_model_returns (members_field (VObj 3)) sample_store
             1 2 0 Team Member {["Membership" := VObj 3]}
             eq_refl eq_refl eq_refl eq_refl eq_refl eq_refl)
      with (bridge := Membership); [| reflexivity].
    by apply through_class.
Defined.

(** ** Further properties of the factory *)

Lemma find_some_of {A} (p : A → bool) (l : list A) x :
  x ∈ l → p x = true → ∃ y, List.find p l = Some y.
Proof.
  induction l as [| z l IH]; simpl.
  - intros H. by apply elem_of_nil in H.
  - intros Hin Hp. destruct (p z) eqn:Hz; [eauto |].
    apply elem_of_cons in Hin as [-> | Hin]; [congruence | by apply IH].
Qed.

Lemma namespace_keyword_cases k :
  k ∈ namespace_keywords →
  k ∈ unpopped_keywords ∨
  k ∈ ["to"; "null"; "on_update"; "on_delete"; "related_name"; "comment";
       "through"; "owner"; "server_default"; "server_onupdate"; "registry";
       "is_o2o"; "is_fk"].
Proof.
  unfold namespace_keywords, unpopped_keywords. rewrite !elem_of_cons.
  intuition congruence.
Qed.

(** What the factory leaves in [extra]: the options it does not spell out,
    with the values the caller gave. *)
Lemma factory_extra cls kwargs f :
  ForeignKeyFieldFactory_new cls kwargs = inr f →
  (∀ k, k ∉ namespace_keywords → dict_get k (extra f) = dict_get k kwargs) ∧
  (∀ k, k ∈ keys (extra f) → k ∈ keys kwargs ∧ k ∉ namespace_keywords).
Proof.
  unfold ForeignKeyFieldFactory_new.
  destruct (validate cls kwargs) as [e | local]; simpl; [done |].
  destruct (List.find _ _) eqn:Hfind; [done |].
  intros [= <-]; simpl. split.
  - intros k Hk. unfold namespace_keywords in Hk.
    rewrite !not_elem_of_cons in Hk.
    rewrite !dict_get_del_ne; [done | intuition congruence ..].
  - intros k Hk. split.
    + rewrite !keys_dict_del in Hk. tauto.
    + apply (bool_decide_eq_false_1 (k ∈ namespace_keywords)).
      apply (find_none _ _ Hfind k). by apply list_elem_of_In.
Qed.

Lemma merged_get_other to through kwargs k :
  k ∉ namespace_keywords →
  dict_get k (merged_kwargs to through kwargs) = dict_get k kwargs.
Proof.
  unfold namespace_keywords. rewrite !not_elem_of_cons. intros Hk.
  unfold merged_kwargs. rewrite !dict_get_set_ne; [done | intuition congruence ..].
Qed.

(** X1: a truthy [related_name] that is no string stops the construction:
    [ManyToManyField] raises [AssertionError("related_name must be a
    string.")] and no field is produced. *)
Theorem m2m_related_name_must_be_string to through kwargs rn :
  dict_get "related_name" kwargs = Some rn →
  truthy rn = true →
  isinstance_str rn = false →
  (ManyToManyField_new to through kwargs).2 =
    inl (AssertionError "related_name must be a string.").
Proof.
  intros Hrn Htr Hstr. rewrite ManyToManyField_new_eq. simpl.
  unfold ForeignKeyFieldFactory_new. simpl.
  unfold ManyToManyField_validate.
  rewrite merged_related_name, Hrn. simpl. by rewrite Htr, Hstr.
Qed.

Lemma m2m_related_name_must_be_string_witness :
  (ManyToManyField_new (VObj 2) VNone [("related_name", VInt 123)]).2 =
    inl (AssertionError "related_name must be a string.").
Proof.
  apply (m2m_related_name_must_be_string _ _ _ (VInt 123)); reflexivity.
Defined.

(** X2: the options [__type__], [annotation], [column_type], [is_m2m] and
    [constraints] cannot be passed: the factory spells them out next to the
    unpacked options, so a call that passes one of them raises [TypeError]
    (multiple values for a keyword argument) instead of returning a field. *)
Theorem m2m_reserved_option_rejected to through kwargs k :
  related_name_accepted kwargs →
  k ∈ keys kwargs →
  k ∈ unpopped_keywords →
  ∃ k',
    k' ∈ keys kwargs ∧ k' ∈ unpopped_keywords ∧
    (ManyToManyField_new to through kwargs).2 =
      inl (TypeError
             ("dict() got multiple values for keyword argument '" +:+ k' +:+
              "'")).
Proof.
  intros Hrn Hk Hres. rewrite ManyToManyField_new_eq. simpl.
  destruct (validate_accepts (merged_kwargs to through kwargs)) as [local Hv].
  { unfold related_name_accepted. by rewrite merged_related_name. }
  unfold ForeignKeyFieldFactory_new. simpl validate. rewrite Hv. simpl.
  assert (Hpopped : ∀ x, x ∈ unpopped_keywords →
            x ∉ ["to"; "null"; "on_update"; "on_delete"; "related_name";
                 "comment"; "through"; "owner"; "server_default";
                 "server_onupdate"; "registry"; "is_o2o"; "is_fk"]).
  { intros x. unfold unpopped_keywords.
    rewrite !elem_of_cons, !elem_of_nil. intuition congruence. }
  match goal with
  | |- context [List.find ?p ?l] =>
      destruct (find_some_of p l k) as [k' Hfind]
  end.
  { rewrite !keys_dict_del. specialize (Hpopped k Hres).
    rewrite !not_elem_of_cons in Hpopped.
    repeat (split; [tauto |]).
    unfold merged_kwargs. rewrite !keys_dict_set. tauto. }
  { apply bool_decide_eq_true.
    unfold unpopped_keywords in Hres. unfold namespace_keywords.
    rewrite !elem_of_cons, elem_of_nil in Hres.
    destruct Hres as [-> | [-> | [-> | [-> | [-> | []]]]]];
      repeat first [apply list_elem_of_here | apply list_elem_of_further]. }
  rewrite Hfind. exists k'. apply find_some in Hfind as [Hin Hns].
  apply list_elem_of_In in Hin. apply bool_decide_eq_true in Hns.
  rewrite !keys_dict_del in Hin.
  apply namespace_keyword_cases in Hns as [Hns | Hns].
  - split; [| done].
    assert (Hm : k' ∈ keys (merged_kwargs to through kwargs)) by tauto.
    apply merged_keys in Hm as [Hm | Hm]; [done |].
    specialize (Hpopped k' Hns). rewrite !not_elem_of_cons in Hpopped.
    rewrite !elem_of_cons in Hm. intuition congruence.
  - exfalso. rewrite !elem_of_cons, elem_of_nil in Hns. intuition congruence.
Qed.

Lemma m2m_reserved_option_rejected_witness :
  ∃ k',
    k' ∈ keys [("is_m2m", VBool false)] ∧ k' ∈ unpopped_keywords ∧
    (ManyToManyField_new (VObj 2) VNone [("is_m2m", VBool false)]).2 =
      inl (TypeError
             ("dict() got multiple values for keyword argument '" +:+ k' +:+
              "'")).
Proof.
  apply (m2m_reserved_option_rejected (VObj 2) VNone
           [("is_m2m", VBool false)] "is_m2m").
  - left. reflexivity.
  - apply list_elem_of_here.
  - unfold unpopped_keywords. rewrite !elem_of_cons. tauto.
Defined.

(** X3: options that the factory does not know are passed through
    verbatim: every such option is found in [extra] with the value the
    caller gave, and [extra] holds nothing else. *)
Theorem m2m_unknown_options_pass_through to through kwargs f :
  (ManyToManyField_new to through kwargs).2 = inr f →
  (∀ k, k ∉ namespace_keywords → dict_get k (extra f) = dict_get k kwargs) ∧
  (∀ k, k ∈ keys (extra f) → k ∈ keys kwargs ∧ k ∉ namespace_keywords).
Proof.
  rewrite ManyToManyField_new_eq. simpl. intros Hf.
  apply factory_extra in Hf as [Hget Hkeys]. split.
  - intros k Hk. rewrite Hget by done. by apply merged_get_other.
  - intros k Hk. destruct (Hkeys k Hk) as [Hin Hns]. split; [| done].
    apply merged_keys in Hin as [Hin | Hin]; [done |].
    exfalso. apply Hns. unfold namespace_keywords.
    rewrite !elem_of_cons, elem_of_nil in Hin.
    destruct Hin as [-> | [-> | [-> | []]]];
      repeat first [apply list_elem_of_here | apply list_elem_of_further].
Qed.

Lemma m2m_unknown_options_pass_through_witness :
  ∃ f,
    (ManyToManyField_new (VObj 2) VNone
       [("index", VBool true); ("comment", VStr "teams")]).2 = inr f ∧
    dict_get "index" (extra f) = Some (VBool true) ∧
    keys (extra f) = ["index"].
Proof.
  eexists. split; [reflexivity |].
  split; [| reflexivity].
  refine (proj1 (m2m_unknown_options_pass_through (VObj 2) VNone
                   [("index", VBool true); ("comment", VStr "teams")] _
                   eq_refl) "index" _).
  unfold namespace_keywords. rewrite !not_elem_of_cons.
  repeat split; try discriminate. apply not_elem_of_nil.
Defined.

(** X4: a field built by [ManyToManyField] carries the target and the
    bridge given as arguments, has [is_m2m] true,
    and takes [CASCADE] for [on_update], [RESTRICT] for [on_delete] and
    false for [is_o2o] and [is_fk] when the caller does not pass them. *)
Theorem m2m_field_arguments_and_defaults to through kwargs f :
  (ManyToManyField_new to through kwargs).2 = inr f →
  ManyToMany.to f = to ∧
  ManyToMany.through f = through ∧
  is_m2m f = VBool true ∧
  on_update f = default CASCADE (dict_get "on_update" kwargs) ∧
  on_delete f = default RESTRICT (dict_get "on_delete" kwargs) ∧
  is_o2o f = default (VBool false) (dict_get "is_o2o" kwargs) ∧
  is_fk f = default (VBool false) (dict_get "is_fk" kwargs).
Proof.
  rewrite ManyToManyField_new_eq. simpl.
  unfold ForeignKeyFieldFactory_new.
  destruct (validate _ _) as [e | local]; simpl; [done |].
  destruct (List.find _ _); [done |].
  intros [= <-]; simpl.
  rewrite !dict_get_del_ne by done. unfold merged_kwargs.
  repeat split.
  - rewrite !dict_get_set_ne by done. by rewrite dict_get_set_eq.
  - rewrite !dict_get_set_ne by done. by rewrite dict_get_set_eq.
  - by rewrite !dict_get_set_ne.
  - by rewrite !dict_get_set_ne.
  - by rewrite !dict_get_set_ne.
  - by rewrite !dict_get_set_ne.
Qed.

Lemma m2m_field_arguments_and_defaults_witness :
  ∃ f,
    (ManyToManyField_new (VObj 2) (VObj 3) [("on_update", VStr "SET NULL")]).2
      = inr f ∧
    ManyToMany.to f = VObj 2 ∧ ManyToMany.through f = VObj 3 ∧
    on_update f = VStr "SET NULL" ∧ on_delete f = RESTRICT.
Proof.
  eexists. split; [reflexivity |].
  destruct (m2m_field_arguments_and_defaults (VObj 2) (VObj 3)
              [("on_update", VStr "SET NULL")] _ eq_refl)
    as (H1 & H2 & _ & H4 & H5 & _).
  repeat split; assumption.
Defined.

(** ** Further properties of the bridge model *)

(** X5: [add_model_to_register] enters the class into the catalogue of the
    field's registry under the class name (replacing what that name held);
    every other name of the catalogue and every other object of the store
    is left as it was. *)
Theorem add_model_to_register_lookup self h r models a m :
  registry self = VObj r → h !! r = Some (ORegistry models) →
  h !! a = Some (OModel m) →
  ∃ h' models',
    add_model_to_register self (VObj a) h = inr h' ∧
    h' !! r = Some (ORegistry models') ∧
    models' !! __name__ m = Some (VObj a) ∧
    (∀ n, n ≠ __name__ m → models' !! n = models !! n) ∧
    (∀ b, b ≠ r → h' !! b = h !! b).
Proof.
  intros Hr Hrc Ha. unfold add_model_to_register.
  rewrite Hr, (get_models_at _ _ _ Hrc). cbn [bind].
  rewrite (get_model_at _ _ _ _ Ha). cbn [bind].
  eexists _, _. split; [reflexivity |]. split; [apply lookup_insert_eq |].
  split; [apply lookup_insert_eq |]. split.
  - intros n Hn. by rewrite lookup_insert_ne.
  - intros b Hb. by rewrite lookup_insert_ne.
Qed.

Lemma add_model_to_register_lookup_witness :
  ∃ h' models',
    add_model_to_register (members_field VNone) (VObj 1) sample_store
      = inr h' ∧
    h' !! 0 = Some (ORegistry models') ∧
    models' !! "Team" = Some (VObj 1) ∧
    models' !! "Membership" = Some (VObj 3).
Proof.
  destruct (add_model_to_register_lookup (members_field VNone) sample_store
              0 {["Membership" := VObj 3]} 1 Team eq_refl eq_refl eq_refl)
    as (h' & models' & Hrun & Hreg & Hnew & Hold & _).
  exists h', models'. split; [exact Hrun |]. split; [exact Hreg |].
  split; [exact Hnew |]. rewrite Hold by discriminate. reflexivity.
Defined.

(** X6: with an explicit bridge model the call marks that model in place:
    afterwards its meta has [is_multi] true and [multi_related] is exactly
    the one-element list of the target's lower-cased name, whatever the list
    held before; its name, its fields and its table name are kept, and no
    other object of the store changes. *)
Theorem explicit_through_marked_multi self h a bridge t to_cls :
  explicit_through h self a →
  h !! a = Some (OModel bridge) →
  to self = VObj t → h !! t = Some (OModel to_cls) →
  ∃ self' h' marked,
    create_through_model self h = inr (self', h', VObj a) ∧
    h' !! a = Some (OModel marked) ∧
    is_multi (meta marked) = true ∧
    multi_related (meta marked) = [lower (__name__ to_cls)] ∧
    __name__ marked = __name__ bridge ∧
    definitions marked = definitions bridge ∧
    tablename (meta marked) = tablename (meta bridge) ∧
    (∀ b, b ≠ a → h' !! b = h !! b).
Proof.
  intros Hex Ha Ht Htc.
  rewrite (create_through_model_explicit self h a bridge t to_cls
             Hex Ha Ht Htc).
  eexists _, _, _. split; [reflexivity |].
  split; [apply lookup_insert_eq |].
  repeat split. intros b Hb. by rewrite lookup_insert_ne.
Qed.

Lemma explicit_through_marked_multi_witness :
  ∃ self' h' marked,
    create_through_model (members_field (VObj 3)) sample_store
      = inr (self', h', VObj 3) ∧
    h' !! 3 = Some (OModel marked) ∧
    is_multi (meta marked) = true ∧
    multi_related (meta marked) = ["member"].
Proof.
  destruct (explicit_through_marked_multi (members_field (VObj 3))
              sample_store 3 Membership 2 Member)
    as (self' & h' & marked & H1 & H2 & H3 & H4 & _); try reflexivity.
  { by apply through_class. }
  exists self', h', marked. repeat split; assumption.
Defined.

(** X7: a synthesised bridge model is cached on the field.  After the call
    that creates it, a second call finds it in [self.through], returns it,
    and changes neither the field nor the store: no second class is made. *)
Theorem synthesised_bridge_is_cached self h o t r owner_cls to_cls models :
  truthy (through self) = false →
  owner self = VObj o → h !! o = Some (OModel owner_cls) →
  to self = VObj t → h !! t = Some (OModel to_cls) →
  registry self = VObj r → h !! r = Some (ORegistry models) →
  ∃ a self' h',
    h !! a = None ∧
    create_through_model self h = inr (self', h', VNone) ∧
    through self' = VObj a ∧
    create_through_model self' h' = inr (self', h', VObj a).
Proof.
  intros Hth Ho Hoc Ht Htc Hr Hrc.
  destruct (create_through_model_synthesises self h o t r owner_cls to_cls
              models Hth Ho Hoc Ht Htc Hr Hrc)
    as (a & bridge & Hnew & Hrun & Hname & Htab & Hreg & Hmulti & Hrel & _).
  exists a. eexists _, _. split; [exact Hnew |]. split; [exact Hrun |].
  split; [reflexivity |].
  assert (Hra : r ≠ a) by (intros ->; congruence).
  assert (Hta : t ≠ a) by (intros ->; congruence).
  assert (Htr : t ≠ r) by (intros ->; congruence).
  rewrite (create_through_model_explicit _ _ a bridge t to_cls).
  - f_equal. f_equal. f_equal. apply insert_id.
    rewrite lookup_insert_ne by done. rewrite lookup_insert_eq.
    f_equal. f_equal. destruct bridge as [n m d [tn mr im rel]].
    simpl in *. by subst.
  - by apply through_class.
  - rewrite lookup_insert_ne by done. apply lookup_insert_eq.
  - exact Ht.
  - by rewrite !lookup_insert_ne.
Qed.

Lemma synthesised_bridge_is_cached_witness :
  ∃ a self' h',
    sample_store !! a = None ∧
    create_through_model (members_field VNone) sample_store
      = inr (self', h', VNone) ∧
    through self' = VObj a ∧
    create_through_model self' h' = inr (self', h', VObj a).
Proof.
  apply (synthesised_bridge_is_cached (members_field VNone) sample_store
           1 2 0 Team Member {["Membership" := VObj 3]}); reflexivity.
Defined.

(** X8: a many-to-many field from a model to itself (owner and target have
    the same class name) gets a bridge model with two fields only, [id] and
    one foreign key named after the class: the two foreign keys share their
    name, and the one to the target replaces the one to the owner. *)
Theorem self_referential_bridge_has_one_key
  self h o t r owner_cls to_cls models :
  truthy (through self) = false →
  owner self = VObj o → h !! o = Some (OModel owner_cls) →
  to self = VObj t → h !! t = Some (OModel to_cls) →
  registry self = VObj r → h !! r = Some (ORegistry models) →
  __name__ owner_cls = __name__ to_cls →
  lower (__name__ to_cls) ≠ "id" →
  ∃ a self' h' bridge rn,
    create_through_model self h = inr (self', h', VNone) ∧
    h' !! a = Some (OModel bridge) ∧
    definitions bridge =
      [("id", IntegerField true);
       (lower (__name__ to_cls), ForeignKey (VObj t) true CASCADE rn)].
Proof.
  intros Hth Ho Hoc Ht Htc Hr Hrc Hsame Hid.
  destruct (create_through_model_synthesises self h o t r owner_cls to_cls
              models Hth Ho Hoc Ht Htc Hr Hrc)
    as (a & bridge & Hnew & Hrun & _ & _ & _ & _ & _ & Hdefs).
  exists a. eexists _, _, bridge, _. split; [exact Hrun |]. split.
  { rewrite lookup_insert_ne by (intros ->; congruence).
    apply lookup_insert_eq. }
  rewrite Hdefs, Hsame. simpl.
  rewrite (decide_False (P := "id" = lower (__name__ to_cls)))
    by (intros E; by rewrite <- E in Hid).
  simpl. rewrite (decide_False (P := "id" = lower (__name__ to_cls)))
    by (intros E; by rewrite <- E in Hid).
  rewrite !decide_True by done. reflexivity.
Qed.

Lemma self_referential_bridge_has_one_key_witness :
  ∃ a self' h' bridge rn,
    create_through_model (sample_field (VObj 1) VNone VNone) sample_store
      = inr (self', h', VNone) ∧
    h' !! a = Some (OModel bridge) ∧
    definitions bridge =
      [("id", IntegerField true);
       ("team", ForeignKey (VObj 1) true CASCADE rn)].
Proof.
  apply (self_referential_bridge_has_one_key
           (sample_field (VObj 1) VNone VNone) sample_store
           1 1 0 Team Team {["Membership" := VObj 3]});
    try reflexivity.
  discriminate.
Defined.

(** X9: when the field declares a [related_name], the bridge's foreign key
    to the target takes that name verbatim as its reverse name, and the
    foreign key to the owner takes
    ["{related_name}_{class_name_lower}s_set"]. *)
Theorem bridge_reverse_names_from_related_name
  self h o t r owner_cls to_cls models rn :
  truthy (through self) = false →
  related_name self = VStr rn → rn ≠ "" →
  owner self = VObj o → h !! o = Some (OModel owner_cls) →
  to self = VObj t → h !! t = Some (OModel to_cls) →
  registry self = VObj r → h !! r = Some (ORegistry models) →
  lower (__name__ owner_cls) ≠ lower (__name__ to_cls) →
  ∃ a self' h' bridge,
    create_through_model self h = inr (self', h', VNone) ∧
    h' !! a = Some (OModel bridge) ∧
    dict_get (lower (__name__ to_cls)) (definitions bridge) =
      Some (ForeignKey (VObj t) true CASCADE rn) ∧
    dict_get (lower (__name__ owner_cls)) (definitions bridge) =
      Some (ForeignKey (VObj o) true CASCADE
              (rn +:+ "_" +:+
               lower (__name__ owner_cls +:+ __name__ to_cls) +:+ "s_set")).
Proof.
  intros Hth Hrn Hne Ho Hoc Ht Htc Hr Hrc Hnames.
  destruct (create_through_model_synthesises self h o t r owner_cls to_cls
              models Hth Ho Hoc Ht Htc Hr Hrc)
    as (a & bridge & Hnew & Hrun & _ & _ & _ & _ & _ & Hdefs).
  exists a. eexists _, _, bridge. split; [exact Hrun |]. split.
  { rewrite lookup_insert_ne by (intros ->; congruence).
    apply lookup_insert_eq. }
  rewrite Hdefs, Hrn, (truthy_nonempty rn Hne). cbn [py_str]. split.
  - apply dict_get_set_eq.
  - rewrite dict_get_set_ne by congruence. apply dict_get_set_eq.
Qed.

Lemma bridge_reverse_names_from_related_name_witness :
  ∃ a self' h' bridge,
    create_through_model (sample_field (VObj 2) VNone (VStr "players"))
      sample_store = inr (self', h', VNone) ∧
    h' !! a = Some (OModel bridge) ∧
    dict_get "member" (definitions bridge) =
      Some (ForeignKey (VObj 2) true CASCADE "players") ∧
    dict_get "team" (definitions bridge) =
      Some (ForeignKey (VObj 1) true CASCADE "players_teammembers_set").
Proof.
  apply (bridge_reverse_names_from_related_name
           (sample_field (VObj 2) VNone (VStr "players")) sample_store
           1 2 0 Team Member {["Membership" := VObj 3]} "players");
    try reflexivity; discriminate.
Defined.

(** X10: a field whose target is still given by name cannot get its bridge
    model: [create_through_model] reads [self.to.__name__] in both branches,
    so with a string [to] it raises and returns nothing. *)
Theorem create_through_model_needs_target_class self h s :
  to self = VStr s →
  ∃ e, create_through_model self h = inl e.
Proof.
  intros Hto. unfold create_through_model.
  destruct (truthy (through self)).
  - assert (Htail : ∀ self1, to self1 = VStr s →
              ∃ e,
                (let* h1 :=
                   set_meta h (through self1)
                     (λ mt, {| tablename := tablename mt;
                               meta_registry := meta_registry mt;
                               is_multi := true;
                               multi_related := multi_related mt |}) in
                 let* to_cls := get_model h1 (to self1) "__name__" in
                 let* h2 :=
                   set_meta h1 (through self1)
                     (λ mt, {| tablename := tablename mt;
                               meta_registry := meta_registry mt;
                               is_multi := is_multi mt;
                               multi_related := [lower (__name__ to_cls)] |}) in
                 inr (self1, h2, through self1)) = inl e).
    { intros self1 H1. destruct (set_meta _ _ _) as [e | h1]; simpl; [eauto |].
      rewrite H1. simpl. eauto. }
    destruct (isinstance_str (through self)); [| by apply Htail].
    destruct (get_model h (owner self) "meta") as [e | oc]; simpl; [eauto |].
    destruct (get_models h (meta_registry (meta oc))) as [e | [r ms]]; simpl;
      [eauto |].
    destruct (ms !! py_str (through self)); [| simpl; eauto].
    cbn [bind]. apply Htail. exact Hto.
  - destruct (get_model h (owner self) "__name__") as [e | oc]; simpl;
      [eauto |].
    rewrite Hto. simpl. eauto.
Qed.

Lemma create_through_model_needs_target_class_witness :
  ∃ e,
    create_through_model (sample_field (VStr "Member") VNone VNone)
      sample_store = inl e.
Proof.
  apply (create_through_model_needs_target_class _ _ "Member"). reflexivity.
Defined.

(** X11: a bridge model given by a name that the catalogue of the owner's
    registry does not hold makes the call raise [KeyError] for that name. *)
Theorem unknown_through_name_raises self h s o owner_cls r models :
  through self = VStr s → s ≠ "" →
  owner self = VObj o → h !! o = Some (OModel owner_cls) →
  meta_registry (meta owner_cls) = VObj r →
  h !! r = Some (ORegistry models) →
  models !! s = None →
  create_through_model self h = inl (KeyError s).
Proof.
  intros Hth Hs Ho Hoc Hr Hrc Hm. unfold create_through_model.
  rewrite Hth, (truthy_nonempty s Hs). cbn [isinstance_str bind py_str].
  rewrite Ho, (get_model_at _ _ _ _ Hoc). cbn [bind].
  rewrite Hr, (get_models_at _ _ _ Hrc). cbn [bind].
  by rewrite Hm.
Qed.

Lemma unknown_through_name_raises_witness :
  create_through_model (sample_field (VObj 2) (VStr "Roster") VNone)
    sample_store = inl (KeyError "Roster").
Proof.
  apply (unknown_through_name_raises _ _ "Roster" 1 Team 0
           {["Membership" := VObj 3]}); try reflexivity.
  discriminate.
Defined.

(** X12: [target] is resolved once.  Whatever the first access returns is
    kept in the cache, and every later access returns it without reading
    the registry again, also from a store in which the name has since been
    removed or bound to another class. *)
Theorem target_is_resolved_once self h t cache :
  target self None h = inr (t, cache) →
  cache = Some t ∧ ∀ h', target self cache h' = inr (t, cache).
Proof.
  unfold target.
  destruct (isinstance_str (to self)).
  - destruct (get_models h (registry self)) as [e | [r ms]]; simpl; [done |].
    destruct (ms !! py_str (to self)); [| done].
    by intros [= <- <-].
  - by intros [= <- <-].
Qed.

Lemma target_is_resolved_once_witness :
  target (sample_field (VStr "Membership") VNone VNone) None sample_store
    = inr (VObj 3, Some (VObj 3)) ∧
  target (sample_field (VStr "Membership") VNone VNone) (Some (VObj 3)) ∅
    = inr (VObj 3, Some (VObj 3)).
Proof.
  split; [reflexivity |].
  apply (target_is_resolved_once
           (sample_field (VStr "Membership") VNone VNone) sample_store
           (VObj 3) (Some (VObj 3)) eq_refl).
Defined.

End ManyToManyProofs.

(** * Properties of the base model *)
Module BaseProofs.
Import Base PyFacts.

(** ** Keyword checking at construction *)

Lemma getattr_after_set self key v :
  getattr (edgy_setattr self key v) key = inr v.
Proof. unfold getattr. simpl. by rewrite dict_get_set_eq. Qed.

Lemma hasattr_after_set self key v key' :
  hasattr (edgy_setattr self key v) key' =
  hasattr self key' || bool_decide (key' = key).
Proof.
  unfold hasattr, dict_has. simpl. apply Bool.eq_iff_eq_true.
  rewrite !orb_true_iff, !bool_decide_eq_true, keys_dict_set. tauto.
Qed.

(** Storing a keyword that passed the test changes the test for no
    keyword. *)
Lemma unknown_keyword_after_set self key v key' :
  unknown_keyword self key = false →
  unknown_keyword (edgy_setattr self key v) key' = unknown_keyword self key'.
Proof.
  unfold unknown_keyword. rewrite hasattr_after_set. simpl.
  case_bool_decide as Heq; [subst key' | by rewrite orb_false_r].
  intros Hk. rewrite orb_true_r. simpl. rewrite andb_false_r.
  symmetry. exact Hk.
Qed.

(** The loop stops at the first keyword that is neither a declared field nor
    an attribute, with the [ValueError] that names it and the class. *)
Lemma setup_loop_rejects items : ∀ self kwargs k,
  List.find (unknown_keyword self) (keys items) = Some k →
  setup_loop self items kwargs =
    inl (ValueError (invalid_keyword k (cls_name (cls self)))).
Proof.
  induction items as [| [key v] items IH]; intros self kwargs k; simpl.
  - discriminate.
  - fold (unknown_keyword self key).
    destruct (unknown_keyword self key) eqn:Hkey.
    + by intros [= ->].
    + intros Hfind. rewrite getattr_after_set. simpl.
      rewrite (IH (edgy_setattr self key v) _ k); [done |].
      rewrite <- Hfind. apply find_same. intros x.
      by apply unknown_keyword_after_set.
Qed.


(** ** The [pk] property of the reflected model *)

Lemma getattr_missing self key :
  hasattr self key = false → getattr self key = inl (AttributeError key).
Proof.
  unfold hasattr. intros H. apply orb_false_iff in H as [H1 H2].
  apply dict_has_get in H1, H2. unfold getattr. by rewrite H1, H2.
Qed.

(** C4, as the code has it: the reflected getter answers [None] when the
    primary-key attribute is not set; the reflected setter calls the builtin
    [setattr], hence [__setattr__]: for a primary key that is a declared
    field the value stored is what [expand_relationship] makes of the raw
    value (or, for a many-to-many field, what the relation attribute holds),
    and the raw value is stored only when the name is no declared field. *)
Theorem Reflect_pk_uses_setattr relation self v :
  let name := pkname (cls self) in
  (hasattr self name = false → Reflect_pk self = VNone) ∧
  (∀ field,
     dict_get name (fields (cls self)) = Some field →
     isinstance_m2m field = false →
     Reflect_pk_set relation self v =
       inr (edgy_setattr self name (expand_relationship field v))) ∧
  (∀ field,
     dict_get name (fields (cls self)) = Some field →
     isinstance_m2m field = true →
     Reflect_pk_set relation self v =
       (let* held := getattr self (relation name) in
        inr (edgy_setattr self name held))) ∧
  (dict_get name (fields (cls self)) = None →
   Reflect_pk_set relation self v = inr (edgy_setattr self name v)).
Proof.
  intros name. unfold Reflect_pk, Reflect_pk_set, __setattr__, getattr_default.
  fold name. split; [| split; [| split]].
  - intros H. by rewrite (getattr_missing _ _ H).
  - intros field -> ->. reflexivity.
  - intros field -> ->. reflexivity.
  - intros ->. reflexivity.
Qed.

Lemma Reflect_pk_uses_setattr_witness :
  Reflect_pk {| cls := Profile; __dict__ := [] |} = VNone ∧
  Reflect_pk_set sample_relation {| cls := Profile; __dict__ := [] |} (VInt 7)
    = inr {| cls := Profile; __dict__ := [("id", VObj 9)] |}.
Proof.
  pose proof (Reflect_pk_uses_setattr sample_relation
                {| cls := Profile; __dict__ := [] |} (VInt 7))
    as (Hget & Hset & _).
  split.
  - apply Hget. reflexivity.
  - apply (Hset stub_field); reflexivity.
Defined.

(** C4 as stated fails: on the reflected class [Profile], whose primary key
    is a relationship field, assigning the raw key 7 to [pk] stores the
    expanded value and not 7.  It is the setter of the base model that
    writes the raw value. *)
Lemma Reflect_pk_set_expands :
  let self := {| cls := Profile; __dict__ := [] |} in
  Reflect_pk_set sample_relation self (VInt 7) =
    inr {| cls := Profile; __dict__ := [("id", VObj 9)] |} ∧
  Reflect_pk_set sample_relation self (VInt 7) ≠
    inr {| cls := Profile; __dict__ := [("id", VInt 7)] |} ∧
  pk_set self (VInt 7) = {| cls := Profile; __dict__ := [("id", VInt 7)] |}.
Proof. simpl. split; [reflexivity |]. split; [discriminate | reflexivity]. Qed.

(** ** Reflection failures *)

(** What is no [Exception] passes through [reflect] unchanged. *)
Lemma reflect_lets_signals_through Table_autoload meta tablename metadata r e :
  meta_registry meta = Some r →
  Table_autoload tablename metadata (sync_engine r) = inl e →
  is_Exception e = false →
  reflect Table_autoload meta tablename metadata = inl e.
Proof. intros Hr He Hx. unfold reflect. by rewrite Hr, He, Hx. Qed.

(** C8: whatever error the introspection raises (any [Exception]: a missing
    table, a lost connection, ...), [reflect], and [build] through it, raise
    [ImproperlyConfigured] with the detail
    ["Table with the name {tablename} does not exist."] and the error as its
    cause. *)
Theorem reflect_failure_reported Table_autoload meta r :
  meta_registry meta = Some r →
  (∀ tablename metadata e,
     Table_autoload tablename metadata (sync_engine r) = inl e →
     is_Exception e = true →
     reflect Table_autoload meta tablename metadata =
       inl (ImproperlyConfigured
              ("Table with the name " +:+ tablename +:+ " does not exist.")
              e)) ∧
  (∀ e,
     Table_autoload (tablename meta) (_metadata r) (sync_engine r) = inl e →
     is_Exception e = true →
     build Table_autoload meta =
       inl (ImproperlyConfigured
              ("Table with the name " +:+ tablename meta +:+
               " does not exist.")
              e)).
Proof.
  intros Hr. split.
  - intros tablename metadata e He Hx. unfold reflect. by rewrite Hr, He, Hx.
  - intros e He Hx. unfold build, reflect. by rewrite Hr, He, Hx.
Qed.

Lemma reflect_failure_reported_witness :
  reflect no_such_table sample_meta "orders" (VExt "MetaData") =
    inl (ImproperlyConfigured "Table with the name orders does not exist."
           (Foreign "NoSuchTableError" true "orders")) ∧
  build no_such_table sample_meta =
    inl (ImproperlyConfigured "Table with the name users does not exist."
           (Foreign "NoSuchTableError" true "users")).
Proof.
  pose proof (reflect_failure_reported no_such_table sample_meta
                {| _metadata := VExt "MetaData"; sync_engine := VExt "Engine" |}
                eq_refl) as [Hreflect Hbuild].
  split.
  - apply (Hreflect "orders" (VExt "MetaData")); reflexivity.
  - apply Hbuild; reflexivity.
Defined.

(** ** Construction with the [pk] keyword *)

Lemma setup_loop_accepts items : ∀ self kwargs,
  (∀ k, k ∈ keys items → unknown_keyword self k = false) →
  setup_loop self items kwargs =
    inr (foldl (λ s p, edgy_setattr s p.1 p.2) self items,
         foldl (λ acc p, dict_set p.1 p.2 acc) kwargs items).
Proof.
  induction items as [| [key v] items IH]; intros self kwargs H; simpl;
    [done |].
  fold (unknown_keyword self key).
  assert (Hkey : unknown_keyword self key = false)
    by apply H, list_elem_of_here.
  rewrite Hkey, getattr_after_set. simpl.
  apply IH. intros k Hk. rewrite unknown_keyword_after_set by done.
  apply H. by apply list_elem_of_further.
Qed.

Lemma cls_after_sets items : ∀ self,
  cls (foldl (λ s p, edgy_setattr s p.1 p.2) self items) = cls self.
Proof.
  induction items as [| [key v] items IH]; intros self; simpl; [done |].
  by rewrite IH.
Qed.

Lemma keep_mapped_get c (d : dict value) k :
  dict_get k (keep_mapped c d) =
  if decide (k ∈ fields_mapping c) then dict_get k d else None.
Proof.
  unfold keep_mapped. induction d as [| [k0 v0] d IH].
  - by destruct (decide _).
  - rewrite filter_cons. simpl.
    destruct (decide (k0 ∈ fields_mapping c)) as [Hin | Hnin]; simpl.
    + destruct (decide (k0 = k)) as [-> | Hne]; [by rewrite decide_True |].
      apply IH.
    + rewrite IH. destruct (decide (k0 = k)) as [-> | Hne]; [| done].
      by rewrite !decide_False.
Qed.

Lemma keep_mapped_elem c (d : dict value) k v :
  (k, v) ∈ keep_mapped c d ↔ k ∈ fields_mapping c ∧ (k, v) ∈ d.
Proof. unfold keep_mapped. by rewrite list_elem_of_filter. Qed.

(** Construction returns as soon as the validation layer does and every
    keyword kept by the filter is a declared field; the storage of the new
    instance is the filtered dictionary. *)
Lemma init_returns pydantic_init c kwargs d :
  pydantic_init c kwargs = inr d →
  NoDup (keys (rename_pk c kwargs)) →
  (∀ k, k ∈ keys (rename_pk c kwargs) → k ∈ fields_mapping c →
        dict_has k (fields c) = true) →
  __init__ pydantic_init c kwargs =
    inr {| cls := c; __dict__ := keep_mapped c (rename_pk c kwargs) |}.
Proof.
  intros Hinit Hnd Hdecl. unfold __init__. rewrite Hinit. simpl.
  unfold setup_model_fields_from_kwargs. simpl.
  rewrite setup_loop_accepts.
  - simpl. unfold set_dict. rewrite cls_after_sets. simpl. f_equal. f_equal.
    apply dict_set_all_same. intros k v Hin.
    apply keep_mapped_elem in Hin as [Hk Hin].
    rewrite keep_mapped_get, decide_True by done.
    by apply dict_get_elem.
  - intros k Hk. unfold keys in Hk.
    apply list_elem_of_fmap in Hk as ([k0 v0] & -> & Hin).
    apply keep_mapped_elem in Hin as [Hk Hin].
    unfold unknown_keyword. simpl. rewrite Hdecl; [done | | done].
    apply list_elem_of_fmap. by exists (k0, v0).
Qed.

Lemma rename_pk_of_pk c v (rest : dict value) :
  "pk" ∉ keys rest → pkname c ∉ keys rest →
  rename_pk c (("pk", v) :: rest) = (rest ++ [(pkname c, v)])%list.
Proof.
  intros Hpk Hid. unfold rename_pk, dict_has, dict_pop.
  rewrite bool_decide_eq_true_2 by apply list_elem_of_here.
  simpl. unfold dict_del. rewrite filter_cons_False by (simpl; tauto).
  fold (dict_del "pk" rest). rewrite dict_del_absent by done.
  by apply dict_set_fresh.
Qed.

Lemma rename_pk_without_pk c (kwargs : dict value) :
  "pk" ∉ keys kwargs → rename_pk c kwargs = kwargs.
Proof.
  intros Hpk. unfold rename_pk, dict_has.
  by rewrite bool_decide_eq_false_2.
Qed.

(** C9, as the code has it: on a model whose primary-key field is the
    declared field [id], when the validation layer accepts the keywords
    with [pk=v] and accepts them with [id=v] (it sees them as given, before
    [pk] is renamed), constructing with [pk=v] and constructing with [id=v]
    (next to the same other keywords, each of which is a declared field
    when the filter keeps it) both produce an instance; the two instances
    are equal and both report [pk == v].  The values are those of the
    model, each of which compares equal to itself. *)
Theorem pk_keyword_same_as_id pydantic_init c v rest d1 d2 :
  pkname c = "id" →
  "id" ∈ fields_mapping c →
  dict_has "id" (fields c) = true →
  NoDup (keys rest) → "pk" ∉ keys rest → "id" ∉ keys rest →
  (∀ k, k ∈ keys rest → k ∈ fields_mapping c → dict_has k (fields c) = true) →
  pydantic_init c (("pk", v) :: rest) = inr d1 →
  pydantic_init c (("id", v) :: rest) = inr d2 →
  ∃ i1 i2,
    __init__ pydantic_init c (("pk", v) :: rest) = inr i1 ∧
    __init__ pydantic_init c (("id", v) :: rest) = inr i2 ∧
    __eq__ i1 i2 = true ∧
    (∃ p, pk i1 = inr p ∧ py_eqb p v = true) ∧
    (∃ p, pk i2 = inr p ∧ py_eqb p v = true).
Proof.
  intros Hpkname Hmapped Hfield Hnd Hpk Hid Hdecl H1 H2.
  assert (Hr1 : rename_pk c (("pk", v) :: rest) = (rest ++ [("id", v)])%list).
  { rewrite <- Hpkname. apply rename_pk_of_pk; [done | by rewrite Hpkname]. }
  assert (Hr2 : rename_pk c (("id", v) :: rest) = ("id", v) :: rest).
  { apply rename_pk_without_pk. simpl. rewrite not_elem_of_cons. by split. }
  assert (Hid' : dict_get "id" (keep_mapped c rest) = None).
  { rewrite keep_mapped_get. destruct (decide _); [| done].
    by apply dict_get_None. }
  exists {| cls := c; __dict__ := keep_mapped c (rest ++ [("id", v)])%list |},
         {| cls := c; __dict__ := keep_mapped c (("id", v) :: rest) |}.
  split; [| split; [| split; [| split]]].
  - rewrite <- Hr1. apply (init_returns _ _ _ d1 H1).
    + rewrite Hr1. unfold keys. rewrite fmap_app. apply NoDup_app.
      split; [done |]. split; [| apply NoDup_singleton].
      intros k Hk Hk'. apply list_elem_of_singleton in Hk'. by subst k.
    + rewrite Hr1. unfold keys. rewrite fmap_app. intros k Hk Hm.
      apply elem_of_app in Hk as [Hk | Hk]; [by apply Hdecl |].
      apply list_elem_of_singleton in Hk. by subst k.
  - replace (keep_mapped c (("id", v) :: rest))
      with (keep_mapped c (rename_pk c (("id", v) :: rest)))
      by (by rewrite Hr2).
    apply (init_returns _ _ _ d2 H2).
    + rewrite Hr2. simpl. apply NoDup_cons. by split.
    + rewrite Hr2. simpl. intros k Hk Hm.
      apply elem_of_cons in Hk as [-> | Hk]; [done | by apply Hdecl].
  - unfold __eq__. simpl. rewrite Nat.eqb_refl. simpl.
    apply forallb_forall. intros key _.
    assert (Hsame : dict_get key (keep_mapped c (rest ++ [("id", v)])%list) =
                    dict_get key (keep_mapped c (("id", v) :: rest))).
    { rewrite !keep_mapped_get. destruct (decide _); [| done].
      rewrite dict_get_app. simpl.
      destruct (decide ("id" = key)) as [<- | Hne].
      - apply dict_get_None in Hid. by rewrite Hid.
      - by destruct (dict_get key rest). }
    unfold getattr_default, getattr. simpl. rewrite Hsame.
    apply py_eqb_refl.
  - exists v. split; [| apply py_eqb_refl].
    unfold pk, getattr. simpl. rewrite Hpkname, keep_mapped_get.
    rewrite decide_True by done. rewrite dict_get_app.
    apply dict_get_None in Hid. rewrite Hid. simpl. reflexivity.
  - exists v. split; [| apply py_eqb_refl].
    unfold pk, getattr. simpl. rewrite Hpkname, keep_mapped_get.
    rewrite decide_True by done. simpl. reflexivity.
Qed.

Lemma pk_keyword_same_as_id_witness :
  ∃ i1 i2,
    __init__ permissive_init User [("pk", VInt 7); ("name", VStr "Ann")]
      = inr i1 ∧
    __init__ permissive_init User [("id", VInt 7); ("name", VStr "Ann")]
      = inr i2 ∧
    __eq__ i1 i2 = true ∧
    (∃ p, pk i1 = inr p ∧ py_eqb p (VInt 7) = true) ∧
    (∃ p, pk i2 = inr p ∧ py_eqb p (VInt 7) = true).
Proof.
  apply (pk_keyword_same_as_id permissive_init User (VInt 7)
           [("name", VStr "Ann")]
           [("pk", VInt 7); ("name", VStr "Ann")]
           [("id", VInt 7); ("name", VStr "Ann")]);
    try reflexivity.
  - apply list_elem_of_here.
  - apply NoDup_singleton.
  - intros H. apply list_elem_of_singleton in H. discriminate.
  - intros H. apply list_elem_of_singleton in H. discriminate.
  - intros k Hk _. apply list_elem_of_singleton in Hk. by subst k.
Defined.

(** C9 as stated fails: validation runs on the keywords as given and the
    rename of [pk] comes after it.  On [User], whose primary-key field is
    the declared integer field [id], the string [abc] given under [pk]
    passes unvalidated and an instance is produced that holds it as [id],
    while the same string given under [id] is refused and no instance is
    produced. *)
Lemma pk_keyword_skips_validation :
  pkname User = "id" ∧
  dict_has "id" (fields User) = true ∧
  __init__ integer_id_init User [("pk", VStr "abc")] =
    inr {| cls := User; __dict__ := [("id", VStr "abc")] |} ∧
  __init__ integer_id_init User [("id", VStr "abc")] =
    inl (Foreign "ValidationError" true "id").
Proof. repeat split; reflexivity. Qed.

(** ** Further properties of construction *)

Lemma keys_dict_set_existing {V} k (v : V) (d : dict V) :
  k ∈ keys d → keys (dict_set k v d) = keys d.
Proof.
  unfold keys. induction d as [| [k0 v0] d IH]; simpl.
  - intros H. by apply elem_of_nil in H.
  - intros H. destruct (decide (k0 = k)) as [-> | Hne]; simpl; [done |].
    apply elem_of_cons in H as [-> | H]; [done |]. f_equal. by apply IH.
Qed.

(** The loop rewrites values only: the dictionary it returns has the keys
    it started with, and the instance keeps its class. *)
Lemma setup_loop_keeps_keys items : ∀ self kwargs self' kwargs',
  setup_loop self items kwargs = inr (self', kwargs') →
  (∀ k, k ∈ keys items → k ∈ keys kwargs) →
  keys kwargs' = keys kwargs ∧ cls self' = cls self.
Proof.
  induction items as [| [key v] items IH]; intros self kwargs self' kwargs';
    simpl.
  - by intros [= <- <-].
  - destruct (_ && _); [done |].
    rewrite getattr_after_set. simpl. intros Hrun Hin.
    apply IH in Hrun as [Hk Hc].
    + rewrite Hk, Hc. split; [| done].
      apply keys_dict_set_existing, Hin, list_elem_of_here.
    + intros k Hk. rewrite keys_dict_set_existing
        by apply Hin, list_elem_of_here.
      apply Hin. by apply list_elem_of_further.
Qed.

(** X13: the [pk] keyword is renamed to the primary-key field and wins over
    a value given under that field's own name: afterwards the field name
    holds the value of [pk], [pk] is gone, and no other keyword changed. *)
Theorem pk_keyword_overrides_primary_key c (kwargs : dict value) v :
  dict_get "pk" kwargs = Some v →
  pkname c ≠ "pk" →
  dict_get (pkname c) (rename_pk c kwargs) = Some v ∧
  ("pk" ∉ keys (rename_pk c kwargs)) ∧
  (∀ k, k ≠ "pk" → k ≠ pkname c →
        dict_get k (rename_pk c kwargs) = dict_get k kwargs).
Proof.
  intros Hpk Hname. unfold rename_pk, dict_has.
  rewrite bool_decide_eq_true_2.
  2: { destruct (decide ("pk" ∈ keys kwargs)) as [? | Hn]; [done |].
       apply dict_get_None in Hn. congruence. }
  unfold dict_pop. rewrite Hpk. simpl. split; [apply dict_get_set_eq |].
  split.
  - rewrite keys_dict_set, keys_dict_del. intros [? | [? _]]; congruence.
  - intros k Hk1 Hk2. rewrite dict_get_set_ne by congruence.
    by rewrite dict_get_del_ne.
Qed.

Lemma pk_keyword_overrides_primary_key_witness :
  dict_get "id" (rename_pk User [("id", VInt 2); ("pk", VInt 1)])
    = Some (VInt 1) ∧
  "pk" ∉ keys (rename_pk User [("id", VInt 2); ("pk", VInt 1)]).
Proof.
  destruct (pk_keyword_overrides_primary_key User
              [("id", VInt 2); ("pk", VInt 1)] (VInt 1) eq_refl)
    as (H1 & H2 & _); [discriminate |].
  split; assumption.
Defined.

(** X14: whatever the validation layer stored on the instance, a
    constructed instance keeps only what the keywords gave for keys of
    [meta.fields_mapping]: its storage has no other key. *)
Theorem init_storage_has_mapped_keys_only pydantic_init c kwargs i :
  __init__ pydantic_init c kwargs = inr i →
  cls i = c ∧
  keys (__dict__ i) = keys (keep_mapped c (rename_pk c kwargs)) ∧
  (∀ k, k ∈ keys (__dict__ i) → k ∈ fields_mapping c).
Proof.
  unfold __init__.
  destruct (pydantic_init c kwargs) as [e | d]; simpl; [done |].
  unfold setup_model_fields_from_kwargs. simpl.
  destruct (setup_loop _ _ _) as [e | [self' values]] eqn:Hloop; simpl;
    [done |].
  intros [= <-]. apply setup_loop_keeps_keys in Hloop as [Hk Hc]; [| done].
  simpl in *. split; [done |]. split; [done |].
  intros k Hin. rewrite Hk in Hin. unfold keys in Hin.
  apply list_elem_of_fmap in Hin as ([k0 v0] & -> & Hin).
  by apply keep_mapped_elem in Hin as [? _].
Qed.

Lemma init_storage_has_mapped_keys_only_witness :
  ∃ i,
    __init__ permissive_init User [("name", VStr "Ann"); ("age", VInt 30)]
      = inr i ∧
    keys (__dict__ i) = ["name"].
Proof.
  eexists. split; [reflexivity |].
  apply (init_storage_has_mapped_keys_only permissive_init User
           [("name", VStr "Ann"); ("age", VInt 30)] _ eq_refl).
Defined.

(** ** Keywords outside [meta.fields_mapping] *)













(** ** Attribute access and assignment *)

Lemma getattr_set_ne self key v k :
  key ≠ k → getattr (edgy_setattr self key v) k = getattr self k.
Proof. intros H. unfold getattr. simpl. by rewrite dict_get_set_ne. Qed.


(** X16: assigning to a many-to-many field never stores the value assigned.
    What is stored is what the relation attribute of that field holds, so
    any two values give the same result, and the assignment raises
    [AttributeError] when the instance has no relation attribute. *)
Theorem setattr_m2m_ignores_value relation self key field :
  dict_get key (fields (cls self)) = Some field →
  isinstance_m2m field = true →
  (∀ v1 v2, __setattr__ relation self key v1 = __setattr__ relation self key v2) ∧
  (∀ v held, getattr self (relation key) = inr held →
     __setattr__ relation self key v = inr (edgy_setattr self key held)) ∧
  (∀ v, hasattr self (relation key) = false →
     __setattr__ relation self key v = inl (AttributeError (relation key))).
Proof.
  intros Hf Hm. unfold __setattr__. rewrite Hf, Hm. split; [done |]. split.
  - intros v held ->. reflexivity.
  - intros v Hno. by rewrite (getattr_missing _ _ Hno).
Qed.

Lemma setattr_m2m_ignores_value_witness :
  __setattr__ sample_relation
    {| cls := Article; __dict__ := [("_tags_relation", VObj 5)] |}
    "tags" (VInt 1) =
  inr {| cls := Article;
         __dict__ := [("_tags_relation", VObj 5); ("tags", VObj 5)] |} ∧
  __setattr__ sample_relation {| cls := Article; __dict__ := [] |}
    "tags" (VInt 1) = inl (AttributeError "_tags_relation").
Proof.
  split.
  - apply (proj1 (proj2 (setattr_m2m_ignores_value sample_relation
             {| cls := Article; __dict__ := [("_tags_relation", VObj 5)] |}
             "tags" relation_field eq_refl eq_refl)) (VInt 1) (VObj 5)).
    reflexivity.
  - apply (proj2 (proj2 (setattr_m2m_ignores_value sample_relation
             {| cls := Article; __dict__ := [] |}
             "tags" relation_field eq_refl eq_refl)) (VInt 1)).
    reflexivity.
Defined.




(** X18: [extract_db_fields] never returns an attribute whose name is in
    [meta.related_names], and returns every other attribute of the instance
    with its value. *)
Theorem extract_db_fields_lookup related_names self k :
  dict_get k (extract_db_fields related_names self) =
  if decide (k ∈ related_names) then None else dict_get k (__dict__ self).
Proof.
  unfold extract_db_fields. induction (__dict__ self) as [| [k0 v0] d IH].
  - by destruct (decide _).
  - rewrite filter_cons. simpl.
    destruct (decide (k0 ∉ related_names)) as [Hnin | Hin]; simpl.
    + destruct (decide (k0 = k)) as [-> | Hne]; [by rewrite decide_False |].
      apply IH.
    + apply dec_stable in Hin. rewrite IH.
      destruct (decide (k0 = k)) as [-> | Hne]; [| done].
      by rewrite !decide_True.
Qed.

(** ** Equality *)

Lemma py_eqb_sym a b : py_eqb a b = py_eqb b a.
Proof.
  destruct a as [| x | x | x | x | x], b as [| y | y | y | y | y]; simpl;
    try reflexivity.
  - by destruct x, y.
  - apply Z.eqb_sym.
  - apply String.eqb_sym.
  - apply Nat.eqb_sym.
  - apply String.eqb_sym.
Qed.

Lemma py_eqb_trans a b c :
  py_eqb a b = true → py_eqb b c = true → py_eqb a c = true.
Proof.
  destruct a as [| x | x | x | x | x], b as [| y | y | y | y | y],
    c as [| z | z | z | z | z]; simpl; try discriminate; try reflexivity;
    rewrite ?Z.eqb_eq, ?String.eqb_eq, ?Nat.eqb_eq;
    try (destruct x; simpl); try (destruct y; simpl); try (destruct z; simpl);
    try discriminate; try reflexivity; try congruence; try lia.
Qed.

Lemma eq_unfold self other :
  __eq__ self other = true ↔
  cls_id (cls self) = cls_id (cls other) ∧
  ∀ key, key ∈ keys (fields (cls self)) →
    py_eqb (getattr_default self key VNone) (getattr_default other key VNone)
      = true.
Proof.
  unfold __eq__. destruct (Nat.eqb_spec (cls_id (cls self)) (cls_id (cls other)))
    as [Heq | Hne]; simpl.
  - rewrite forallb_forall. split.
    + intros H. split; [done |]. intros key Hk. by apply H, list_elem_of_In.
    + intros [_ H] key Hk. by apply H, list_elem_of_In.
  - split; [done | intros [? _]; done].
Qed.



(** X20: on the instances of one class, [__eq__] is an equivalence: every
    instance equals itself, the answer does not depend on the side an
    instance stands on, and equality carries over a middle instance.
    Instances of classes that are not the same object are never equal. *)
Theorem eq_is_equivalence_on_a_class :
  (∀ a, __eq__ a a = true) ∧
  (∀ a b, cls a = cls b → __eq__ a b = __eq__ b a) ∧
  (∀ a b c, cls a = cls b → cls b = cls c →
     __eq__ a b = true → __eq__ b c = true → __eq__ a c = true) ∧
  (∀ a b, cls_id (cls a) ≠ cls_id (cls b) → __eq__ a b = false).
Proof.
  split; [| split; [| split]].
  - intros a. apply eq_unfold. split; [done |]. intros. apply py_eqb_refl.
  - intros a b Hc. apply Bool.eq_iff_eq_true. rewrite !eq_unfold, <- Hc.
    split; intros [_ H]; (split; [done |]); intros key Hk;
      rewrite py_eqb_sym; by apply H.
  - intros a b c Hab Hbc H1 H2. apply eq_unfold in H1 as [I1 H1].
    apply eq_unfold in H2 as [I2 H2]. apply eq_unfold.
    split; [congruence |]. intros key Hk.
    apply (py_eqb_trans _ (getattr_default b key VNone)); [by apply H1 |].
    apply H2. by rewrite <- Hab.
  - intros a b Hne. apply not_true_iff_false. intros H.
    by apply eq_unfold in H as [? _].
Qed.

(** ** Rendering and raw query *)

(** X21: rendering a base-model instance whose primary key is not set
    does not raise the [AttributeError] of the primary-key name: the failing
    getter of [pk] hands over to [BaseModel.__getattr__("pk")], and
    [__str__] and [__repr__] raise what that raises, an [AttributeError]
    naming [pk] when the framework holds no extra of that name; the
    reflected model renders the missing key as [None]. *)
Theorem str_without_primary_key BaseModel_getattr self e :
  hasattr self (pkname (cls self)) = false →
  BaseModel_getattr self "pk" = inl e →
  __str__ BaseModel_getattr self = inl e ∧
  __repr__ BaseModel_getattr self = inl e ∧
  Reflect___str__ self =
    cls_name (cls self) +:+ "(" +:+ pkname (cls self) +:+ "=None)" ∧
  Reflect___repr__ self =
    "<" +:+ cls_name (cls self) +:+ ": " +:+
    (cls_name (cls self) +:+ "(" +:+ pkname (cls self) +:+ "=None)") +:+ ">".
Proof.
  intros Hno He.
  assert (Hs : __str__ BaseModel_getattr self = inl e).
  { unfold __str__, pk_attribute, pk.
    by rewrite (getattr_missing _ _ Hno), He. }
  assert (Hr : Reflect___str__ self =
               cls_name (cls self) +:+ "(" +:+ pkname (cls self) +:+ "=None)").
  { unfold Reflect___str__, Reflect_pk, getattr_default.
    rewrite (getattr_missing _ _ Hno). simpl. reflexivity. }
  split; [exact Hs |]. split; [unfold __repr__; by rewrite Hs |].
  split; [exact Hr |]. unfold Reflect___repr__. by rewrite Hr.
Qed.

Lemma str_without_primary_key_witness :
  __str__ no_extras {| cls := User; __dict__ := [("name", VStr "Ann")] |}
    = inl (AttributeError "pk") ∧
  __repr__ no_extras {| cls := User; __dict__ := [("name", VStr "Ann")] |}
    = inl (AttributeError "pk") ∧
  Reflect___str__ {| cls := User; __dict__ := [("name", VStr "Ann")] |}
    = "User(id=None)".
Proof.
  destruct (str_without_primary_key no_extras
              {| cls := User; __dict__ := [("name", VStr "Ann")] |}
              (AttributeError "pk") eq_refl eq_refl)
    as (H1 & H2 & H3 & _).
  split; [exact H1 |]. split; [exact H2 | exact H3].
Defined.

(** X22: the [raw_query] setter does not change what the getter returns.
    It writes the value under the name that the getter returns (the current
    query text), not under the name kept in [__raw_query__]; and with
    [__raw_query__] left at [None] getter and setter raise [TypeError]. *)
Theorem raw_query_set_keeps_getter slot self text v :
  raw_query (VStr slot) self = inr (VStr text) →
  text ≠ slot →
  raw_query_set (VStr slot) self v = inr (edgy_setattr self text v) ∧
  raw_query (VStr slot) (edgy_setattr self text v) = inr (VStr text) ∧
  raw_query VNone self = inl (TypeError "attribute name must be string") ∧
  raw_query_set VNone self v = inl (TypeError "attribute name must be string").
Proof.
  intros Hq Hne. split; [| split; [| split]]; try reflexivity.
  - unfold raw_query_set. by rewrite Hq.
  - simpl in *. by rewrite getattr_set_ne.
Qed.

Lemma raw_query_set_keeps_getter_witness :
  raw_query_set (VStr "sql")
    {| cls := User; __dict__ := [("sql", VStr "select 1")] |} (VStr "select 2")
  = inr {| cls := User;
           __dict__ := [("sql", VStr "select 1");
                        ("select 1", VStr "select 2")] |}.
Proof.
  apply (raw_query_set_keeps_getter "sql"
           {| cls := User; __dict__ := [("sql", VStr "select 1")] |}
           "select 1" (VStr "select 2")); [reflexivity | discriminate].
Defined.

(** ** Reflection, further *)

(** X23: when the introspection returns a table, [reflect] and [build]
    return that table.  Without a registry on [meta], [reflect] still answers
    with the table-does-not-exist [ImproperlyConfigured] (the
    [AttributeError] of the engine lookup is its cause), while [build] raises
    the plain [AttributeError] of its own metadata lookup. *)
Theorem reflect_edges Table_autoload meta tablename metadata :
  (∀ r table,
     meta_registry meta = Some r →
     Table_autoload tablename metadata (sync_engine r) = inr table →
     reflect Table_autoload meta tablename metadata = inr table) ∧
  (∀ r table,
     meta_registry meta = Some r →
     Table_autoload (Base.tablename meta) (_metadata r) (sync_engine r)
       = inr table →
     build Table_autoload meta = inr table) ∧
  (meta_registry meta = None →
   reflect Table_autoload meta tablename metadata =
     inl (ImproperlyConfigured
            ("Table with the name " +:+ tablename +:+ " does not exist.")
            (AttributeError "sync_engine")) ∧
   build Table_autoload meta = inl (AttributeError "_metadata")).
Proof.
  unfold build, reflect. split; [| split].
  - intros r table -> ->. reflexivity.
  - intros r table -> ->. reflexivity.
  - intros ->. split; reflexivity.
Qed.

Lemma reflect_edges_witness :
  build any_table sample_meta = inr (VExt "users") ∧
  reflect any_table no_registry_meta "users" VNone =
    inl (ImproperlyConfigured "Table with the name users does not exist."
           (AttributeError "sync_engine")) ∧
  build any_table no_registry_meta = inl (AttributeError "_metadata").
Proof.
  pose proof (reflect_edges any_table sample_meta "users" (VExt "MetaData"))
    as (_ & Hbuild & _).
  pose proof (reflect_edges any_table no_registry_meta "users" VNone)
    as (_ & _ & Hnone).
  split; [| by apply Hnone].
  apply (Hbuild {| _metadata := VExt "MetaData"; sync_engine := VExt "Engine" |});
    reflexivity.
Defined.

End BaseProofs.

(** * Properties of row materialisation *)
Module RowProofs.
Import Row PyFacts.

(** As long as no matching column carries the name of the foreign key, the
    guard [related not in child_item] never closes: every column whose name
    is a field of the target gets an entry, each holding [row[related]]. *)
Lemma child_item_loop_every_match related row fields v columns :
  dict_get related row = Some v →
  ∀ child_item,
    related ∉ keys child_item →
    related ∉ filter (λ c, c ∈ fields) columns →
    NoDup (keys child_item ++ columns) →
    child_item_loop related row fields columns child_item =
      inr (child_item ++
           ((λ c, (c, v)) <$> filter (λ c, c ∈ fields) columns))%list.
Proof.
  intros Hrow. induction columns as [| c columns IH];
    intros child_item Hrel Hcol Hnd; simpl.
  - by rewrite app_nil_r.
  - rewrite filter_cons in Hcol |- *.
    apply NoDup_app in Hnd as (Hnd1 & Hdisj & Hnd2).
    apply NoDup_cons in Hnd2 as [Hc Hnd2].
    assert (Hnd' : ∀ acc : dict value,
              keys acc = (keys child_item ++ [c])%list ∨ acc = child_item →
              NoDup (keys acc ++ columns)).
    { intros acc [-> | ->].
      - rewrite <- app_assoc. simpl. apply NoDup_app. split; [done |].
        split; [done | by apply NoDup_cons].
      - apply NoDup_app. split; [done |]. split; [| done].
        intros x Hx Hx'. apply (Hdisj x Hx). by apply list_elem_of_further. }
    destruct (decide (c ∈ fields)) as [Hin | Hnin].
    + rewrite bool_decide_eq_true_2 by done. simpl.
      unfold dict_has. rewrite bool_decide_eq_false_2 by done. simpl.
      rewrite Hrow. apply not_elem_of_cons in Hcol as [Hne Hcol].
      assert (Hfresh : c ∉ keys child_item).
      { intros Hx. apply (Hdisj c Hx). apply list_elem_of_here. }
      rewrite dict_set_fresh by done.
      rewrite IH.
      * by rewrite <- app_assoc.
      * unfold keys. rewrite fmap_app. simpl.
        rewrite elem_of_app, list_elem_of_singleton.
        intros [Hx | Hx]; [by apply Hrel | by apply Hne].
      * done.
      * apply Hnd'. left. unfold keys. by rewrite fmap_app.
    + rewrite bool_decide_eq_false_2 by done. simpl.
      apply IH; [done | done |]. apply Hnd'. by right.
Qed.

(** C3, at the row [(id=1, name="Dune", author=7)] of [books] with the
    foreign key [author] to [Author(id, name)] and no eager-load path: the
    keyword arguments of the stub are [id=7] and [name=7], two entries and
    not one.  The guard tests the name of the foreign key while the entry is
    stored under the name of the column, so it does not stop after the first
    match. *)
Theorem author_stub_gets_two_entries :
  should_ignore_related_name "author" [] = false ∧
  child_item_of "author" author_key book_columns book_row =
    inr [("id", VInt 7); ("name", VInt 7)] ∧
  populate_related [("author", author_key)] [] book_columns book_row [] =
    inr [("author", (VObj 2, [("id", VInt 7); ("name", VInt 7)]))].
Proof. repeat split; reflexivity. Qed.

(** ** Paths *)

Lemma append_nil_r (s : string) : s +:+ "" = s.
Proof.
  induction s as [| c s IH]; [done |].
  change (String c (s +:+ "") = String c s). by f_equal.
Qed.

Lemma append_assoc (a b c : string) : (a +:+ b) +:+ c = a +:+ (b +:+ c).
Proof.
  induction a as [| x a IH]; [done |].
  change (String x ((a +:+ b) +:+ c) = String x (a +:+ (b +:+ c))).
  by f_equal.
Qed.

(** One character that does not open a separator is moved to the piece
    being read, by both splitting functions. *)
Lemma split_step cur c r :
  (∀ rest, String c r ≠ String "_" (String "_" rest)) →
  split_from cur (String c r) = split_from (cur +:+ String c "") r ∧
  split_first_from cur (String c r) =
    split_first_from (cur +:+ String c "") r.
Proof.
  intros H.
  destruct c as [[] [] [] [] [] [] [] []]; try (split; reflexivity).
  destruct r as [| c' r']; [split; reflexivity |].
  destruct c' as [[] [] [] [] [] [] [] []]; try (split; reflexivity).
  exfalso. by apply (H r').
Qed.

Lemma starts_with_separator_dec (s : string) :
  {rest | s = String "_" (String "_" rest)} +
  {∀ rest, s ≠ String "_" (String "_" rest)}.
Proof.
  destruct s as [| c [| c' r]]; [right; discriminate | right; discriminate |].
  destruct (decide (c = "_"%char)) as [-> | Hc];
    [| right; intros rest [= ? ?]; done].
  destruct (decide (c' = "_"%char)) as [-> | Hc'];
    [| right; intros rest [= ? ?]; done].
  left. by exists r.
Qed.

(** The two ways of splitting agree: the text before the first separator
    is the first piece of the full split, and a path without separator is
    its own only piece. *)
Lemma split_agree s : ∀ cur,
  match split_first_from cur s with
  | Some (first_part, remainder) =>
      split_from cur s = first_part :: split_from "" remainder
  | None => split_from cur s = [cur +:+ s]
  end.
Proof.
  induction s as [| c r IH]; intros cur.
  - simpl. by rewrite append_nil_r.
  - destruct (starts_with_separator_dec (String c r)) as [[rest E] | Hno].
    + injection E as -> ->. reflexivity.
    + destruct (split_step cur c r Hno) as [-> ->].
      specialize (IH (cur +:+ String c "")).
      destruct (split_first_from _ r) as [[a b] |]; [done |].
      rewrite IH. by rewrite append_assoc.
Qed.

Lemma eager_key_in_split related :
  eager_key related ∈ split_dunder related.
Proof.
  unfold eager_key, split_first, split_dunder.
  pose proof (split_agree related "") as H.
  destruct (split_first_from "" related) as [[a b] |]; rewrite H.
  - apply list_elem_of_here.
  - apply list_elem_of_here.
Qed.

Lemma eager_key_ignored related select_related :
  related ∈ select_related →
  should_ignore_related_name (eager_key related) select_related = true.
Proof.
  intros Hin. unfold should_ignore_related_name. apply existsb_exists.
  exists related. split; [by apply list_elem_of_In |].
  apply bool_decide_eq_true. apply eager_key_in_split.
Qed.

(** X24: every path of [select_related] makes the second step leave out the
    key under which the first step stores what it loads for that path: the
    whole path when it has no ["__"], the text before the first ["__"]
    otherwise.  With nothing to load eagerly, no name is left out. *)
Theorem eager_keys_are_ignored related select_related :
  related ∈ select_related →
  should_ignore_related_name (eager_key related) select_related = true ∧
  (∀ name, should_ignore_related_name name [] = false).
Proof. intros Hin. split; [by apply eager_key_ignored | done]. Qed.

Lemma eager_keys_are_ignored_witness :
  should_ignore_related_name "publisher"
    ["author"; "publisher__country"] = true.
Proof.
  apply (eager_keys_are_ignored "publisher__country"
           ["author"; "publisher__country"]).
  apply list_elem_of_further, list_elem_of_here.
Defined.

(** ** The second step *)

(** The second step writes under names that are not ignored only. *)
Lemma lazy_stubs_keeps_ignored fks select_related columns row : ∀ item item',
  lazy_stubs fks select_related columns row item = inr item' →
  ∀ k, should_ignore_related_name k select_related = true →
       dict_get k item' = dict_get k item.
Proof.
  induction fks as [| [related fk] fks IH]; intros item item'; simpl.
  - by intros [= <-].
  - destruct (should_ignore_related_name related select_related) eqn:Hig.
    + apply IH.
    + destruct (child_item_of related fk columns row) as [e | ci]; simpl;
        [done |].
      intros Hrun k Hk. rewrite (IH _ _ Hrun k Hk).
      apply dict_get_set_ne. intros ->. congruence.
Qed.

(** X25: when every foreign key of the model is named by a path of
    [select_related], the second step builds no stub at all: it returns
    [item] as it got it and does not read the row. *)
Theorem lazy_stubs_skips_ignored_keys fks select_related columns row item :
  (∀ related, related ∈ keys fks →
     should_ignore_related_name related select_related = true) →
  lazy_stubs fks select_related columns row item = inr item.
Proof.
  induction fks as [| [related fk] fks IH]; simpl; [done |].
  intros H. rewrite (H related) by apply list_elem_of_here.
  apply IH. intros r Hr. apply H. by apply list_elem_of_further.
Qed.

Lemma lazy_stubs_skips_ignored_keys_witness :
  lazy_stubs [("author", author_key)] ["author"] book_columns [] [] = inr [].
Proof.
  apply lazy_stubs_skips_ignored_keys. intros related Hr.
  apply list_elem_of_singleton in Hr. by subst related.
Defined.

Lemma child_item_loop_no_match related row fields columns : ∀ child_item,
  (∀ c, c ∈ columns → c ∉ fields) →
  child_item_loop related row fields columns child_item = inr child_item.
Proof.
  induction columns as [| c columns IH]; intros child_item H; simpl; [done |].
  rewrite bool_decide_eq_false_2 by apply H, list_elem_of_here. simpl.
  apply IH. intros x Hx. apply H. by apply list_elem_of_further.
Qed.

Lemma child_item_loop_missing_column related row fields columns :
  ∀ child_item,
    dict_get related row = None →
    related ∉ keys child_item →
    (∃ c, c ∈ columns ∧ c ∈ fields) →
    child_item_loop related row fields columns child_item =
      inl (KeyError related).
Proof.
  induction columns as [| c columns IH]; intros child_item Hrow Hrel Hex;
    simpl.
  - destruct Hex as (c & Hc & _). by apply elem_of_nil in Hc.
  - destruct (decide (c ∈ fields)) as [Hin | Hnin].
    + rewrite bool_decide_eq_true_2 by done. simpl.
      unfold dict_has. rewrite bool_decide_eq_false_2 by done. simpl.
      by rewrite Hrow.
    + rewrite bool_decide_eq_false_2 by done. simpl.
      apply IH; [done | done |].
      destruct Hex as (x & Hx & Hf). exists x. split; [| done].
      apply elem_of_cons in Hx as [-> | Hx]; done.
Qed.

(** X26: the keyword arguments of a stub at the edges.  When no column of
    the table is named like a field of the target, the stub is built
    without arguments and the row is not read; when some column is, but
    the row has no value under the name of the foreign key, the step
    raises [KeyError] for that name. *)
Theorem child_item_edges related fk columns row :
  ((∀ c, c ∈ columns → c ∉ target_fields fk) →
   child_item_of related fk columns row = inr []) ∧
  (dict_get related row = None →
   (∃ c, c ∈ columns ∧ c ∈ target_fields fk) →
   child_item_of related fk columns row = inl (KeyError related)).
Proof.
  unfold child_item_of. split.
  - apply child_item_loop_no_match.
  - intros Hrow Hex. apply child_item_loop_missing_column; [done | | done].
    apply not_elem_of_nil.
Qed.

Lemma child_item_edges_witness :
  child_item_of "author" author_key ["title"; "author"] book_row = inr [] ∧
  child_item_of "author" author_key book_columns [("id", VInt 1)]
    = inl (KeyError "author").
Proof.
  split.
  - apply (proj1 (child_item_edges "author" author_key ["title"; "author"]
                    book_row)).
    intros c Hc. simpl. rewrite !elem_of_cons, elem_of_nil in Hc.
    rewrite !not_elem_of_cons.
    destruct Hc as [-> | [-> | []]]; repeat split; try discriminate;
      apply not_elem_of_nil.
  - apply (proj2 (child_item_edges "author" author_key book_columns
                    [("id", VInt 1)])); [reflexivity |].
    exists "id". split; apply list_elem_of_here.
Defined.

(** ** The third step *)

(** What the third step leaves under each key, when it returns. *)
Lemma pull_columns_lookup field_names row columns : ∀ item item',
  pull_columns field_names columns row item = inr item' →
  ∀ k,
    dict_get k item' =
    match dict_get k item with
    | Some x => Some x
    | None =>
        if decide (k ∈ columns ∧ k ∈ field_names)
        then Plain <$> dict_get k row else None
    end.
Proof.
  induction columns as [| c columns IH]; intros item item'; simpl.
  - intros [= <-] k. by destruct (dict_get k item).
  - assert (Hskip : ∀ k, (k = c → c ∉ field_names ∨ is_Some (dict_get k item)) →
              match dict_get k item with
              | Some x => Some x
              | None =>
                  if decide (k ∈ columns ∧ k ∈ field_names)
                  then Plain <$> dict_get k row else None
              end =
              match dict_get k item with
              | Some x => Some x
              | None =>
                  if decide (k ∈ c :: columns ∧ k ∈ field_names)
                  then Plain <$> dict_get k row else None
              end).
    { intros k Hk. destruct (dict_get k item) eqn:Hget; [done |].
      destruct (decide (k ∈ columns ∧ k ∈ field_names)) as [[H1 H2] | Hn].
      - rewrite decide_True; [done |]. split; [| done].
        by apply list_elem_of_further.
      - rewrite decide_False; [done |]. intros [H1 H2].
        apply elem_of_cons in H1 as [-> | H1]; [| tauto].
        destruct (Hk eq_refl) as [? | [? ?]]; [done | congruence]. }
    destruct (decide (c ∈ field_names)) as [Hin | Hnin].
    + rewrite bool_decide_eq_true_2 by done. simpl.
      destruct (dict_has c item) eqn:Hhas; simpl.
      * intros Hrun k. rewrite (IH _ _ Hrun k). apply Hskip.
        intros ->. right. unfold dict_has in Hhas.
        apply bool_decide_eq_true in Hhas.
        destruct (dict_get c item) eqn:Hget; [eauto |].
        apply dict_get_None in Hget. done.
      * destruct (dict_get c row) as [v |] eqn:Hrow; [| done].
        intros Hrun k. rewrite (IH _ _ Hrun k).
        apply dict_has_get in Hhas.
        destruct (decide (c = k)) as [<- | Hne].
        -- rewrite dict_get_set_eq, Hhas.
           rewrite decide_True by (split; [apply list_elem_of_here | done]).
           by rewrite Hrow.
        -- rewrite dict_get_set_ne by done. apply Hskip.
           intros ->. done.
    + rewrite bool_decide_eq_false_2 by done. simpl.
      intros Hrun k. rewrite (IH _ _ Hrun k). apply Hskip.
      intros ->. by left.
Qed.

(** The third step returns as soon as the row has a value for every
    column it has to copy. *)
Lemma pull_columns_returns field_names row columns : ∀ item,
  (∀ c, c ∈ columns → c ∈ field_names → is_Some (dict_get c row)) →
  ∃ item', pull_columns field_names columns row item = inr item'.
Proof.
  induction columns as [| c columns IH]; intros item H; simpl; [eauto |].
  assert (Hrest : ∀ x, x ∈ columns → x ∈ field_names →
                       is_Some (dict_get x row)).
  { intros x Hx. apply H. by apply list_elem_of_further. }
  destruct (decide (c ∈ field_names)) as [Hin | Hnin].
  - rewrite bool_decide_eq_true_2 by done. simpl.
    destruct (dict_has c item); simpl; [by apply IH |].
    destruct (H c (list_elem_of_here _ _) Hin) as [v ->]. by apply IH.
  - rewrite bool_decide_eq_false_2 by done. simpl. by apply IH.
Qed.

(** How the third step ends: with [KeyError] for the first column, in the
    order of the table, that it has to copy and cannot, and with a dictionary
    when there is no such column. *)
Lemma pull_columns_outcome field_names row columns : ∀ item,
  match List.find (uncopyable field_names row item) columns with
  | Some c => pull_columns field_names columns row item = inl (KeyError c)
  | None => ∃ item', pull_columns field_names columns row item = inr item'
  end.
Proof.
  induction columns as [| c columns IH]; intros item; simpl; [eauto |].
  unfold uncopyable at 1.
  destruct (bool_decide (c ∈ field_names)); simpl; [| apply IH].
  destruct (dict_has c item) eqn:Hhas; simpl; [apply IH |].
  destruct (dict_get c row) as [v |] eqn:Hrow; [| done].
  rewrite (find_same (uncopyable field_names row item)
             (uncopyable field_names row (dict_set c (Plain v) item)));
    [apply IH |].
  intros x. unfold uncopyable.
  destruct (decide (x = c)) as [-> | Hne].
  - by rewrite Hrow, !andb_false_r.
  - f_equal. f_equal. f_equal. unfold dict_has.
    apply Bool.eq_iff_eq_true. rewrite !bool_decide_eq_true, keys_dict_set.
    tauto.
Qed.

(** X27: the third step never replaces what [item] already holds, and what
    it adds is a column of the table that is a declared field of the model,
    with the value of the row; it raises [KeyError] for the first column, at
    whatever position in the table, that is a declared field, is not held by
    [item] and has no value in the row, and returns when there is no such
    column. *)
Theorem pull_columns_fills_the_gaps field_names columns row item :
  (∀ item',
     pull_columns field_names columns row item = inr item' →
     (∀ k x, dict_get k item = Some x → dict_get k item' = Some x) ∧
     (∀ k x, dict_get k item = None → dict_get k item' = Some x →
        k ∈ columns ∧ k ∈ field_names ∧ Some x = Plain <$> dict_get k row)) ∧
  (∀ c,
     List.find (uncopyable field_names row item) columns = Some c →
     pull_columns field_names columns row item = inl (KeyError c)) ∧
  (List.find (uncopyable field_names row item) columns = None →
     ∃ item', pull_columns field_names columns row item = inr item').
Proof.
  split; [| split].
  - intros item' Hrun. pose proof (pull_columns_lookup _ _ _ _ _ Hrun) as L.
    split.
    + intros k x Hk. by rewrite (L k), Hk.
    + intros k x Hk Hk'. rewrite (L k), Hk in Hk'.
      destruct (decide _) as [[H1 H2] | _]; [| done]. by rewrite Hk'.
  - intros c Hc. pose proof (pull_columns_outcome field_names row columns item)
      as H. by rewrite Hc in H.
  - intros Hc. pose proof (pull_columns_outcome field_names row columns item)
      as H. by rewrite Hc in H.
Qed.

Lemma pull_columns_fills_the_gaps_witness :
  pull_columns ["id"; "author"] ["id"; "name"; "author"] book_row
    [("author", Instance (VObj 2) [])] =
  inr [("author", Instance (VObj 2) []); ("id", Plain (VInt 1))] ∧
  pull_columns ["id"; "name"; "author"] ["id"; "name"; "author"]
    [("id", VInt 1); ("author", VInt 7)] [("author", Instance (VObj 2) [])] =
  inl (KeyError "name").
Proof.
  split; [reflexivity |].
  apply (proj1 (proj2 (pull_columns_fills_the_gaps ["id"; "name"; "author"]
                         ["id"; "name"; "author"]
                         [("id", VInt 1); ("author", VInt 7)]
                         [("author", Instance (VObj 2) [])])) "name").
  reflexivity.
Defined.

(** ** The whole function *)

(** X28: a model without foreign keys, materialised without eager loading:
    when the row has a value for every column that is a declared field,
    the instance is built from exactly those columns, each with the value
    of the row; columns that are no declared field are left out, and the
    recursive call is never made. *)
Theorem from_sqla_row_plain_columns from_sqla_row_of cls_ref cls row :
  foreign_key_fields cls = [] →
  (∀ c, c ∈ columns cls → c ∈ keys (fields cls) → is_Some (dict_get c row)) →
  ∃ item,
    from_sqla_row from_sqla_row_of cls_ref cls row [] =
      inr (Instance cls_ref item) ∧
    ∀ k,
      dict_get k item =
      if decide (k ∈ columns cls ∧ k ∈ keys (fields cls))
      then Plain <$> dict_get k row else None.
Proof.
  intros Hfk Hrow. unfold from_sqla_row. rewrite Hfk. simpl.
  destruct (pull_columns_returns (keys (fields cls)) row (columns cls) [] Hrow)
    as [item Hrun].
  rewrite Hrun. simpl. exists item. split; [done |].
  intros k. by rewrite (pull_columns_lookup _ _ _ _ _ Hrun k).
Qed.

Lemma from_sqla_row_plain_columns_witness :
  ∃ item,
    from_sqla_row bare_instance (VObj 2)
      {| fields := [("id", inl (AttributeError "target"));
                    ("name", inl (AttributeError "target"))];
         related_from := []; foreign_key_fields := [];
         columns := ["id"; "name"; "rank"] |}
      [("id", VInt 7); ("name", VStr "Ann"); ("rank", VInt 3)] []
    = inr (Instance (VObj 2) item) ∧
    dict_get "name" item = Some (Plain (VStr "Ann")) ∧
    dict_get "rank" item = None.
Proof.
  destruct (from_sqla_row_plain_columns bare_instance (VObj 2)
              {| fields := [("id", inl (AttributeError "target"));
                            ("name", inl (AttributeError "target"))];
                 related_from := []; foreign_key_fields := [];
                 columns := ["id"; "name"; "rank"] |}
              [("id", VInt 7); ("name", VStr "Ann"); ("rank", VInt 3)]
              eq_refl) as (item & Hrun & Hget).
  - intros c Hc Hf. simpl in Hf. rewrite !elem_of_cons, elem_of_nil in Hf.
    destruct Hf as [-> | [-> | []]]; eexists; reflexivity.
  - exists item. split; [exact Hrun |]. split.
    + rewrite (Hget "name"). reflexivity.
    + rewrite (Hget "rank"). reflexivity.
Defined.

(** The keys that the first step adds are the keys of its paths. *)
Lemma eager_load_keys from_sqla_row_of cls row select_related :
  ∀ item item',
    eager_load from_sqla_row_of cls row select_related item = inr item' →
    ∀ k, k ∈ keys item' →
      k ∈ keys item ∨ ∃ related, related ∈ select_related ∧ k = eager_key related.
Proof.
  induction select_related as [| related rest IH]; intros item item'; simpl.
  - intros [= <-] k Hk. by left.
  - assert (Hstep : ∀ inst,
              eager_load from_sqla_row_of cls row rest
                (dict_set (eager_key related) inst item) = inr item' →
              ∀ k, k ∈ keys item' →
                k ∈ keys item ∨
                ∃ r, r ∈ related :: rest ∧ k = eager_key r).
    { intros inst Hrun k Hk.
      destruct (IH _ _ Hrun k Hk) as [Hin | (r & Hr & ->)].
      - apply keys_dict_set in Hin as [-> | Hin]; [| by left].
        right. exists related. split; [apply list_elem_of_here | done].
      - right. exists r. split; [by apply list_elem_of_further | done]. }
    unfold eager_key in Hstep.
    destruct (split_first related) as [[first_part remainder] |].
    + destruct (related_model cls first_part) as [e | m]; simpl; [done |].
      destruct (from_sqla_row_of m row [remainder]) as [e | inst]; simpl;
        [done |].
      apply Hstep.
    + destruct (related_model cls related) as [e | m]; simpl; [done |].
      destruct (from_sqla_row_of m row []) as [e | inst]; simpl; [done |].
      apply Hstep.
Qed.

(** X29: what the first step loads for a path reaches the constructor
    untouched: neither the stub of the second step nor the column value of
    the third step replaces an entry that the first step has set. *)
Theorem eager_entries_survive from_sqla_row_of cls_ref cls row select_related
  inst :
  from_sqla_row from_sqla_row_of cls_ref cls row select_related = inr inst →
  ∃ loaded item,
    eager_load from_sqla_row_of cls row select_related [] = inr loaded ∧
    inst = Instance cls_ref item ∧
    ∀ k x, dict_get k loaded = Some x → dict_get k item = Some x.
Proof.
  unfold from_sqla_row.
  destruct (eager_load _ _ _ _ _) as [e | loaded] eqn:H1; simpl; [done |].
  destruct (lazy_stubs _ _ _ _ _) as [e | item2] eqn:H2; simpl; [done |].
  destruct (pull_columns _ _ _ _) as [e | item3] eqn:H3; simpl; [done |].
  intros [= <-]. exists loaded, item3. split; [done |]. split; [done |].
  intros k x Hk.
  rewrite (pull_columns_lookup _ _ _ _ _ H3 k).
  rewrite (lazy_stubs_keeps_ignored _ _ _ _ _ _ H2 k).
  - by rewrite Hk.
  - assert (Hin : k ∈ keys loaded).
    { destruct (decide (k ∈ keys loaded)) as [? | Hn]; [done |].
      apply dict_get_None in Hn. congruence. }
    destruct (eager_load_keys _ _ _ _ _ _ H1 k Hin) as [Hnil | (r & Hr & ->)].
    + by apply elem_of_nil in Hnil.
    + by apply eager_key_ignored.
Qed.

Lemma eager_entries_survive_witness :
  ∃ item,
    from_sqla_row bare_instance (VObj 1) Book book_row ["author"]
      = inr (Instance (VObj 1) item) ∧
    dict_get "author" item = Some (Instance (VObj 2) []).
Proof.
  destruct (eager_entries_survive bare_instance (VObj 1) Book book_row
              ["author"] _ eq_refl) as (loaded & item & Hload & Hinst & Hkeep).
  exists item. split; [rewrite <- Hinst; reflexivity |].
  apply Hkeep. injection Hload as <-. reflexivity.
Defined.

(** X30: a path whose key names neither a declared field nor a reverse
    accessor of the model stops the materialisation with [AttributeError]
    for that key, before any later path is looked at; a [KeyError] raised
    while the field resolves its target is answered by trying the reverse
    accessor. *)
Theorem unknown_eager_path_raises from_sqla_row_of cls_ref cls row related
  rest :
  dict_get (eager_key related) (related_from cls) = None →
  (dict_get (eager_key related) (fields cls) = None ∨
   ∃ k, dict_get (eager_key related) (fields cls) = Some (inl (KeyError k))) →
  from_sqla_row from_sqla_row_of cls_ref cls row (related :: rest) =
    inl (AttributeError (eager_key related)).
Proof.
  intros Hrev Hfield. unfold from_sqla_row. simpl.
  assert (Hm : related_model cls (eager_key related) =
               inl (AttributeError (eager_key related))).
  { unfold related_model. rewrite Hrev.
    destruct Hfield as [-> | [k ->]]; reflexivity. }
  unfold eager_key in *.
  destruct (split_first related) as [[first_part remainder] |];
    by rewrite Hm.
Qed.

Lemma unknown_eager_path_raises_witness :
  from_sqla_row bare_instance (VObj 1) Book book_row ["publisher__country"]
    = inl (AttributeError "publisher").
Proof.
  apply (unknown_eager_path_raises bare_instance (VObj 1) Book book_row
           "publisher__country" []); [reflexivity |].
  left. reflexivity.
Defined.

End RowProofs.
